(** * Structured logging façade: ELK logger and response-logger middleware

    A shallow embedding of [src/elk-logger.js] and
    [src/response-logger-middleware.js], and the properties of the
    natural-language specification that can be stated over it.

    JavaScript objects are finite maps from property names to values,
    effects (the clock read by [Date.now()], the calls made on the shared
    pino logger, the lines written by [console.log], exceptions) are threaded
    through a small state-and-exception monad. *)

From Stdlib Require Import ZArith Lia Ascii String List.
From stdpp Require Import gmap strings list fin_maps pretty.

Set Warnings "-register-all".
Open Scope Z_scope.

(** ** JavaScript values *)

Module Js.

(** The numbers that occur in the two modules are integer valued (status
    codes, epoch milliseconds, calendar fields) or [NaN] (every field of an
    invalid [Date]). *)
Inductive Number : Type :=
| NaN
| Int (z : Z).

Inductive Value : Type :=
| JUndefined
| JNull
| JBool (b : bool)
| JNum (n : Number)
| JStr (s : string)
| JFun (name : string)
| JObj (props : gmap string Value).

(** [Number::toString]: plain decimal notation for integers. *)
Definition Number_toString (n : Number) : string :=
  match n with
  | NaN => "NaN"
  | Int z => pretty z
  end.

(** [a + b] on numbers. *)
Definition Number_add (a b : Number) : Number :=
  match a, b with
  | Int x, Int y => Int (x + y)
  | _, _ => NaN
  end.

(** [ToBoolean], as used by [||]. *)
Definition truthy (v : Value) : bool :=
  match v with
  | JUndefined | JNull => false
  | JBool b => b
  | JNum NaN => false
  | JNum (Int z) => negb (z =? 0)
  | JStr s => negb (String.eqb s "")
  | JFun _ | JObj _ => true
  end.

(** [a || b]. *)
Definition or_else (a b : Value) : Value := if truthy a then a else b.

(** Object spread [{ ...target, ...source }]: the properties written later
    replace the ones written earlier. *)
Definition spread (target source : gmap string Value) : gmap string Value :=
  source ∪ target.

(** [String.prototype.toUpperCase] on ASCII text. *)
Definition upper_ascii (c : ascii) : ascii :=
  let n := nat_of_ascii c in
  if (Nat.leb 97 n && Nat.leb n 122)%bool then ascii_of_nat (n - 32) else c.

Definition lower_ascii (c : ascii) : ascii :=
  let n := nat_of_ascii c in
  if (Nat.leb 65 n && Nat.leb n 90)%bool then ascii_of_nat (n + 32) else c.

Fixpoint map_string (f : ascii -> ascii) (s : string) : string :=
  match s with
  | EmptyString => EmptyString
  | String c rest => String (f c) (map_string f rest)
  end.

Definition toUpperCase (s : string) : string := map_string upper_ascii s.
Definition toLowerCase (s : string) : string := map_string lower_ascii s.

(** [String.prototype.padStart(targetLength, padString)]. *)
Fixpoint cycle (fuel : nat) (pad cur : string) : string :=
  match fuel with
  | O => EmptyString
  | S fuel' =>
      match cur with
      | EmptyString =>
          match pad with
          | EmptyString => EmptyString
          | String c rest => String c (cycle fuel' pad rest)
          end
      | String c rest => String c (cycle fuel' pad rest)
      end
  end.

Definition padStart (targetLength : nat) (padString s : string) : string :=
  if Nat.leb targetLength (String.length s) then s
  else match padString with
       | EmptyString => s
       | _ => cycle (targetLength - String.length s) padString padString +:+ s
       end.

End Js.

Import Js.

(** ** The runtime: clock, shared logger, console, exceptions *)

Module Runtime.

(** The failure a downstream handler raises.  The handler's contract is that
    a failure carries a message and a stack trace: it is an [Error] instance,
    and the middleware reads [error.message], [error.stack] and
    [error.constructor.name] off it. *)
Record JsError : Type := mkError {
  message : string;
  stack : Value;
  constructor_name : string
}.

(** The four pino levels used by the logging helpers. *)
Inductive Severity : Type := Debug | Info | Warn | Error.

(** One call [elkLogger.<level>(object)]. *)
Record LogCall : Type := mkCall {
  severity : Severity;
  payload : gmap string Value
}.

Record World : Type := mkWorld {
  clock : Z;                      (* what [Date.now()] returns *)
  elkCalls : list LogCall;        (* calls made on [elkLogger], oldest first *)
  stdout : list (list Value)      (* argument lists of [console.log] *)
}.

Inductive Completion (A : Type) : Type :=
| Normal (a : A)
| Throw (e : JsError).
Arguments Normal {A} a.
Arguments Throw {A} e.

Definition M (A : Type) : Type := World -> Completion A * World.

#[global] Instance M_ret : MRet M := fun A a w => (Normal a, w).

#[global] Instance M_bind : MBind M := fun A B f m w =>
  match m w with
  | (Normal a, w') => f a w'
  | (Throw e, w') => (Throw e, w')
  end.

Definition throw {A : Type} (e : JsError) : M A := fun w => (Throw e, w).

(** [try { body } catch (error) { handler }]. *)
Definition try_catch {A : Type} (body : M A) (handler : JsError -> M A) : M A :=
  fun w =>
    match body w with
    | (Normal a, w') => (Normal a, w')
    | (Throw e, w') => handler e w'
    end.

Definition Date_now : M Z := fun w => (Normal (clock w), w).

Definition console_log (args : list Value) : M unit := fun w =>
  (Normal tt, mkWorld (clock w) (elkCalls w) (stdout w ++ [args])).

Definition elk_call (level : Severity) (obj : gmap string Value) : M unit := fun w =>
  (Normal tt, mkWorld (clock w) (elkCalls w ++ [mkCall level obj]) (stdout w)).

(** *** Event emitters *)

(** An emitter is its listeners, in registration order. *)
Definition Emitter : Type := list (string * (Value -> M unit)).

(** [emitter.on(eventName, listener)]. *)
Definition on (emitter : Emitter) (eventName : string) (listener : Value -> M unit)
  : Emitter :=
  emitter ++ [(eventName, listener)].

Fixpoint call_listeners (ls : list (string * (Value -> M unit))) (arg : Value) : M unit :=
  match ls with
  | [] => mret tt
  | l :: rest => snd l arg;; call_listeners rest arg
  end.

(** What [emit] throws for an ["error"] event nobody listens to: the
    argument when it is an error, an error made for the occasion otherwise.
    The stream of this module has a listener for ["error"], so this error
    is never raised there and its message and stack play no part below. *)
Definition unhandled_error (arg : Value) : JsError :=
  match arg with
  | JObj props =>
      mkError
        (match props !! "message" with Some (JStr m) => m | _ => "Unhandled error." end)
        (match props !! "stack" with Some st => st | None => JUndefined end)
        "Error"
  | _ => mkError "Unhandled error." JUndefined "Error"
  end.

(** [emitter.emit(eventName, arg)]: the listeners of that event run in
    order; an ["error"] event without a listener is thrown. *)
Definition emit (emitter : Emitter) (eventName : string) (arg : Value) : M bool :=
  match List.filter (fun l => String.eqb (fst l) eventName) emitter with
  | [] => if String.eqb eventName "error" then throw (unhandled_error arg) else mret false
  | ls => call_listeners ls arg;; mret true
  end.

End Runtime.

Import Runtime.

(** ** src/elk-logger.js *)

Module ElkLogger.

(** [Deno.env.get(name)]: the variable's value, or [undefined]. *)
Definition Deno_env_get (env : gmap string string) (name : string) : Value :=
  match env !! name with
  | Some v => JStr v
  | None => JUndefined
  end.

(** *** Calendar arithmetic of [Date] (ECMA-262, "Time Values and Time Range") *)

Definition msPerDay : Z := 86400000.

Definition Day (t : Z) : Z := t / msPerDay.

Definition DayFromYear (y : Z) : Z :=
  365 * (y - 1970) + (y - 1969) / 4 - (y - 1901) / 100 + (y - 1601) / 400.

Definition DaysInYear (y : Z) : Z :=
  if negb (y mod 4 =? 0) then 365
  else if negb (y mod 100 =? 0) then 366
  else if negb (y mod 400 =? 0) then 365
  else 366.

(** The largest [y] with [DayFromYear y <= d]: the estimate from the mean
    length of a Gregorian year is off by at most one. *)
Definition YearFromDay (d : Z) : Z :=
  let y := 1970 + (400 * d) / 146097 in
  if DayFromYear (y + 1) <=? d then y + 1
  else if DayFromYear y <=? d then y
  else y - 1.

Definition YearFromTime (t : Z) : Z := YearFromDay (Day t).

Definition InLeapYear (t : Z) : Z :=
  if DaysInYear (YearFromTime t) =? 366 then 1 else 0.

Definition DayWithinYear (t : Z) : Z := Day t - DayFromYear (YearFromTime t).

Definition MonthFromTime (t : Z) : Z :=
  let d := DayWithinYear t in
  let leap := InLeapYear t in
  if d <? 31 then 0
  else if d <? 59 + leap then 1
  else if d <? 90 + leap then 2
  else if d <? 120 + leap then 3
  else if d <? 151 + leap then 4
  else if d <? 181 + leap then 5
  else if d <? 212 + leap then 6
  else if d <? 243 + leap then 7
  else if d <? 273 + leap then 8
  else if d <? 304 + leap then 9
  else if d <? 334 + leap then 10
  else 11.

Definition DateFromTime (t : Z) : Z :=
  let d := DayWithinYear t in
  let leap := InLeapYear t in
  match MonthFromTime t with
  | 0 => d + 1
  | 1 => d - 30
  | 2 => d - 58 - leap
  | 3 => d - 89 - leap
  | 4 => d - 119 - leap
  | 5 => d - 150 - leap
  | 6 => d - 180 - leap
  | 7 => d - 211 - leap
  | 8 => d - 242 - leap
  | 9 => d - 272 - leap
  | 10 => d - 303 - leap
  | _ => d - 333 - leap
  end.

(** [TimeClip]: a time value is at most 8.64e15 ms away from the epoch. *)
Definition TimeClip (time : Number) : Number :=
  match time with
  | NaN => NaN
  | Int t => if 8640000000000000 <? Z.abs t then NaN else Int t
  end.

(** A [Date] object is its time value. *)
Record Date : Type := mkDate { DateValue : Number }.

(** What the sink passes as [logTime]: [string|number|Date]. *)
Inductive LogTime : Type :=
| LtString (s : string)
| LtNumber (n : Number)
| LtDate (d : Date).

(** *** The date-time string format

    The simplified ISO 8601 format of ECMA-262 in UTC,
    [YYYY-MM-DDTHH:mm:ssZ] and [YYYY-MM-DDTHH:mm:ss.sssZ]: the form in which
    pino and the ECS formatter write a record's time.  As the host does,
    the parser takes any day of the month from 1 to 31 and lets a day past
    the end of its month run on into the next one.  It reads these two
    shapes only: a host also reads others (a date alone, an offset in place
    of [Z], fractions of other lengths, lower-case letters), for which this
    parser answers [NaN]; the properties of the key are therefore stated for
    any parser, and this one serves as an instance on strings of the two
    shapes. *)

Definition digit_value (c : ascii) : option Z :=
  let n := nat_of_ascii c in
  if (Nat.leb 48 n && Nat.leb n 57)%bool then Some (Z.of_nat n - 48) else None.

Fixpoint digits_value (acc : Z) (s : string) : option Z :=
  match s with
  | EmptyString => Some acc
  | String c rest =>
      match digit_value c with
      | Some v => digits_value (10 * acc + v) rest
      | None => None
      end
  end.

(** The number written in the [len] characters from position [start]. *)
Definition field (s : string) (start len : nat) : option Z :=
  let f := String.substring start len s in
  if Nat.eqb (String.length f) len then digits_value 0 f else None.

Definition char_is (s : string) (pos : nat) (c : ascii) : bool :=
  match String.get pos s with
  | Some c' => Ascii.eqb c c'
  | None => false
  end.

Definition DaysBeforeMonth (y m : Z) : Z :=
  let leap := if DaysInYear y =? 366 then 1 else 0 in
  match m with
  | 1 => 0
  | 2 => 31
  | 3 => 59 + leap
  | 4 => 90 + leap
  | 5 => 120 + leap
  | 6 => 151 + leap
  | 7 => 181 + leap
  | 8 => 212 + leap
  | 9 => 243 + leap
  | 10 => 273 + leap
  | 11 => 304 + leap
  | 12 => 334 + leap
  | _ => 365 + leap
  end.

Definition Date_parse_iso (s : string) : Number :=
  let len := String.length s in
  let punctuated :=
    (char_is s 4 "-" && char_is s 7 "-" && char_is s 10 "T"
     && char_is s 13 ":" && char_is s 16 ":")%bool in
  let millis :=
    if Nat.eqb len 20 then if char_is s 19 "Z" then Some 0 else None
    else if Nat.eqb len 24 then
      if (char_is s 19 "." && char_is s 23 "Z")%bool then field s 20 3 else None
    else None in
  match field s 0 4, field s 5 2, field s 8 2,
        field s 11 2, field s 14 2, field s 17 2, millis with
  | Some y, Some mo, Some d, Some h, Some mi, Some sec, Some ms =>
      if (punctuated
          && (1 <=? mo) && (mo <=? 12)
          && (1 <=? d) && (d <=? 31)
          && ((h <=? 23) || ((h =? 24) && (mi =? 0) && (sec =? 0) && (ms =? 0)))
          && (mi <=? 59) && (sec <=? 59))%bool
      then Int ((DayFromYear y + DaysBeforeMonth y mo + (d - 1)) * msPerDay
                + h * 3600000 + mi * 60000 + sec * 1000 + ms)
      else NaN
  | _, _, _, _, _, _, _ => NaN
  end.

Section Host.

(** Two things the host decides: how a string parses as a date
    ([Date.parse], [NaN] when it does not) and the offset of local time from
    UTC, in milliseconds, at a given instant. *)
Variable Date_parse : string -> Number.
Variable LocalTZA : Z -> Z.

(** [new Date(value)]. *)
Definition new_Date (value : LogTime) : Date :=
  let tv :=
    match value with
    | LtDate d => DateValue d
    | LtString s => Date_parse s
    | LtNumber n => n
    end in
  mkDate (TimeClip tv).

Definition LocalTime (t : Z) : Z := t + LocalTZA t.

Definition getFullYear (date : Date) : Number :=
  match DateValue date with
  | NaN => NaN
  | Int t => Int (YearFromTime (LocalTime t))
  end.

Definition getMonth (date : Date) : Number :=
  match DateValue date with
  | NaN => NaN
  | Int t => Int (MonthFromTime (LocalTime t))
  end.

Definition getDate (date : Date) : Number :=
  match DateValue date with
  | NaN => NaN
  | Int t => Int (DateFromTime (LocalTime t))
  end.

Definition getIndexFromLogTime (logTime : LogTime) : string :=
  let date := new_Date logTime in
  let year := getFullYear date in
  let month := padStart 2 "0" (Number_toString (Number_add (getMonth date) (Int 1))) in
  let day := padStart 2 "0" (Number_toString (getDate date)) in
  "logstash-" +:+ Number_toString year +:+ "." +:+ month +:+ "." +:+ day.

(** *** The Elasticsearch stream and its delivery events *)

Record ElasticsearchOptions : Type := mkOptions {
  esVersion : Z;
  flushBytes : Z;
  flushInterval : Z;
  index : LogTime -> string;
  node : Value
}.

Definition elasticsearchOptions (env : gmap string string) : ElasticsearchOptions :=
  {| esVersion := 8;
     flushBytes := 1000;
     flushInterval := 1000;
     index := fun logTime => getIndexFromLogTime logTime;
     node := Deno_env_get env "ELK_URL" |}.

(** [pinoElasticsearch(options)] hands back a stream with no listener of
    the caller's yet. *)
Definition pinoElasticsearch (options : ElasticsearchOptions) : Emitter := [].

Definition streamToElasticSearch (env : gmap string string) : Emitter :=
  let stream := pinoElasticsearch (elasticsearchOptions env) in
  let stream := on stream "insertError"
                  (fun error => console_log [JStr "ELK INSERTERROR"; error]) in
  let stream := on stream "unknown"
                  (fun error => console_log [JStr "ELK UNKNOWN"; error]) in
  let stream := on stream "insert"
                  (fun error => console_log [JStr "ELK INSERT"; error]) in
  on stream "error" (fun error => console_log [JStr "ELK ERROR"; error]).

End Host.

(** *** Environment to log level *)

(** The properties every object literal inherits from [Object.prototype].
    Deno removes the [__proto__] accessor, so that name is not among them. *)
Definition Object_prototype_methods : gmap string Value :=
  list_to_map
    [ ("constructor", JFun "Object");
      ("__defineGetter__", JFun "__defineGetter__");
      ("__defineSetter__", JFun "__defineSetter__");
      ("hasOwnProperty", JFun "hasOwnProperty");
      ("__lookupGetter__", JFun "__lookupGetter__");
      ("__lookupSetter__", JFun "__lookupSetter__");
      ("isPrototypeOf", JFun "isPrototypeOf");
      ("propertyIsEnumerable", JFun "propertyIsEnumerable");
      ("toString", JFun "toString");
      ("valueOf", JFun "valueOf");
      ("toLocaleString", JFun "toLocaleString") ].

Definition Object_prototype_get (key : string) : Value :=
  match Object_prototype_methods !! key with
  | Some v => v
  | None => JUndefined
  end.

(** [ToPropertyKey].  [Deno.env.get] hands back a string or [undefined];
    functions and objects never reach a property lookup here. *)
Definition ToPropertyKey (v : Value) : string :=
  match v with
  | JStr s => s
  | JUndefined => "undefined"
  | JNull => "null"
  | JBool true => "true"
  | JBool false => "false"
  | JNum n => Number_toString n
  | JFun name => name
  | JObj _ => "[object Object]"
  end.

(** [object[key]] on an object literal: own properties first, then the
    prototype. *)
Definition get_property (own : gmap string Value) (key : Value) : Value :=
  let k := ToPropertyKey key in
  match own !! k with
  | Some v => v
  | None => Object_prototype_get k
  end.

Definition LOG_LEVELS : gmap string Value :=
  list_to_map
    [ ("development", JStr "debug");
      ("test", JStr "info");
      ("staging", JStr "warn");
      ("production", JStr "error") ].

Definition logLevel (env : gmap string string) : Value :=
  or_else (get_property LOG_LEVELS (Deno_env_get env "APPLICATION_ENV")) (JStr "info").

(** *** Logging streams *)

(** [a === b] on primitives; functions and objects compare by identity and
    do not occur as operands here. *)
Definition strict_equals (a b : Value) : bool :=
  match a, b with
  | JUndefined, JUndefined => true
  | JNull, JNull => true
  | JBool x, JBool y => Bool.eqb x y
  | JNum (Int x), JNum (Int y) => x =? y
  | JStr x, JStr y => String.eqb x y
  | _, _ => false
  end.

(** [array.includes(value)] on an array of strings. *)
Definition Array_includes (array : list Value) (value : Value) : bool :=
  existsb (fun element => strict_equals element value) array.

(** The three stream objects of the module. *)
Inductive Destination : Type :=
| prettyStream
| process_stdout
| elasticSearchStream.

Record StreamEntry : Type := mkStream {
  stream : Destination;
  level : Value
}.

Definition streams (env : gmap string string) : list StreamEntry :=
  let streams :=
    [ {| stream :=
           if strict_equals (Deno_env_get env "APPLICATION_ENV") (JStr "development")
           then prettyStream
           else process_stdout;
         level := logLevel env |} ] in
  if Array_includes [JStr "production"; JStr "staging"; JStr "test"]
       (Deno_env_get env "APPLICATION_ENV")
  then streams ++ [ {| stream := elasticSearchStream; level := logLevel env |} ]
  else streams.

(** *** Logging helpers *)

(** [elkLogger.error], [.warn], [.info], [.debug]. *)
Definition elkLogger (level : Severity) (obj : gmap string Value) : M unit :=
  elk_call level obj.

Definition logError (errorType : string) (errorData : gmap string Value) : M unit :=
  elkLogger Error (spread {[ "errorType" := JStr errorType ]} errorData).

Definition logWarn (warningType : string) (warningData : gmap string Value) : M unit :=
  elkLogger Warn (spread {[ "warningType" := JStr warningType ]} warningData).

Definition logInfo (infoType : string) (infoData : gmap string Value) : M unit :=
  elkLogger Info (spread {[ "infoType" := JStr infoType ]} infoData).

Definition logDebug (debugType : string) (debugData : gmap string Value) : M unit :=
  elkLogger Debug (spread {[ "debugType" := JStr debugType ]} debugData).

(** *** The record written for a call *)

(** The logger's [mixin]: the application name from the environment. *)
Definition mixin (env : gmap string string) : gmap string Value :=
  {[ "Application" := Deno_env_get env "APPLICATION_NAME" ]}.

(** pino's default merge of the logged object with the mixin's,
    [Object.assign(mixinObject, mergeObject)]: the logged object is laid
    over the mixin's. *)
Definition mixinMergeStrategy (mergeObject mixinObject : gmap string Value)
  : gmap string Value :=
  spread mixinObject mergeObject.

(** The label the ECS formatter writes under [log.level]. *)
Definition levelLabel (s : Severity) : string :=
  match s with
  | Debug => "debug"
  | Info => "info"
  | Warn => "warn"
  | Error => "error"
  end.

(** pino writes a property unless its value is [undefined] or a function. *)
Definition is_written (v : Value) : bool :=
  match v with
  | JUndefined | JFun _ => false
  | _ => true
  end.

Section Formatter.

(** Two things are the ECS formatter's own: its [log] function, which adds
    ECS fields to the object about to be written, and the base bindings
    ([process.pid], [host.hostname]) as it formats them. *)
Variable formatLog : gmap string Value -> gmap string Value.
Variable bindings : list (string * Value).

(** The line pino writes for a call, as its key/value pairs in the order
    written: the level, the time, the bindings, then the properties of the
    logged object merged with the mixin's (distinct keys, so their order
    among themselves does not matter to a reader).  A key of the object can
    repeat one written before it. *)
Definition asJson (env : gmap string string) (timestamp : string) (call : LogCall)
  : list (string * Value) :=
  let obj := mixinMergeStrategy (payload call) (mixin env) in
  [ ("log.level", JStr (levelLabel (severity call)));
    ("@timestamp", JStr timestamp) ]
  ++ bindings
  ++ map_to_list (filter (fun kv => is_written (snd kv) = true) (formatLog obj)).

End Formatter.

(** Reading a written line back: of two pairs with one key the later one
    stays. *)
Definition JSON_parse (line : list (string * Value)) : gmap string Value :=
  list_to_map (reverse line).

End ElkLogger.

Import ElkLogger.

(** ** src/response-logger-middleware.js *)

Module ResponseLogger.

(** What the downstream handler returns: a [Response], which carries a
    numeric status code. *)
Record Response : Type := mkResponse {
  status : Z;
  statusText : string;
  body : string
}.

Record Request : Type := mkRequest {
  method : string;
  url : string;
  headers : list (string * string)
}.

(** The middleware context: the request and the rest of the chain. *)
Record Context : Type := mkContext {
  req : Request;
  next : M Response
}.

(** [Headers.prototype.get]: names compare case-insensitively, several
    values are joined with a comma and a space, an absent header is [null]. *)
Definition Headers_get (h : list (string * string)) (name : string) : Value :=
  match List.filter (fun kv => String.eqb (toLowerCase (fst kv)) (toLowerCase name)) h with
  | [] => JNull
  | kv :: rest => JStr (fold_left (fun acc kv' => acc +:+ ", " +:+ snd kv') rest (snd kv))
  end.

Definition responseLoggerMiddleware (context : Context) : M Response :=
  startTime ← Date_now;
  let method := method (req context) in
  let url := url (req context) in
  response ←
    try_catch (next context)
      (fun error =>
         now ← Date_now;
         logError "UnhandledError"
           (list_to_map
              [ ("error", JStr (message error));
                ("stack", stack error);
                ("url", JStr url);
                ("method", JStr (toUpperCase method));
                ("userAgent", Headers_get (headers (req context)) "user-agent");
                ("context",
                 JObj (list_to_map
                         [ ("errorType", JStr (constructor_name error));
                           ("duration", JNum (Int (now - startTime))) ])) ]);;
         throw error);
  now ← Date_now;
  let duration := now - startTime in
  let status := status response in
  let logData : gmap string Value :=
    list_to_map
      [ ("message",
         JStr (toUpperCase method +:+ " " +:+ url +:+ " - " +:+ Number_toString (Int status)));
        ("method", JStr (toUpperCase method));
        ("url", JStr url);
        ("status", JNum (Int status));
        ("duration", JNum (Int duration));
        ("userAgent", Headers_get (headers (req context)) "user-agent") ] in
  (if status >=? 500 then logError "ResponseError" logData
   else if status >=? 400 then logWarn "ResponseWarning" logData
   else logInfo "ResponseSuccess" logData);;
  mret response.

End ResponseLogger.

Import ResponseLogger.

(** ** Vocabulary of the specification *)

Module KeyFormat.

Definition digit (n : Z) : ascii := ascii_of_nat (48 + Z.to_nat n).

Definition two_digits (n : Z) : string :=
  String (digit (n / 10)) (String (digit (n mod 10)) EmptyString).

Definition four_digits (n : Z) : string :=
  String (digit (n / 1000)) (String (digit (n / 100 mod 10)) (two_digits (n mod 100))).

(** [logstash-YYYY.MM.DD]: four-digit year, two-digit month and day. *)
Definition IndexPartitionKey (year month day : Z) : string :=
  "logstash-" +:+ four_digits year +:+ "." +:+ two_digits month +:+ "." +:+ two_digits day.

Definition range (lo n : Z) : list Z :=
  List.map (fun k => lo + Z.of_nat k) (seq 0 (Z.to_nat n)).

End KeyFormat.

Import KeyFormat.

(** The helper of each severity, and the payload key it files the category
    tag under. *)
Definition helper_of (s : Severity) : string -> gmap string Value -> M unit :=
  match s with
  | Error => logError
  | Warn => logWarn
  | Info => logInfo
  | Debug => logDebug
  end.

Definition category_key (s : Severity) : string :=
  match s with
  | Error => "errorType"
  | Warn => "warningType"
  | Info => "infoType"
  | Debug => "debugType"
  end.

(** The keys of the envelope: severity, time, application identity and
    the category keys of the four helpers. *)
Definition envelopeKeys : list string :=
  [ "log.level"; "@timestamp"; "Application";
    "errorType"; "warningType"; "infoType"; "debugType" ].

(** ** Scenarios *)

Module Scenarios.

Definition UTC (t : Z) : Z := 0.

(** Eleven hours behind UTC all year round. *)
Definition Pago_Pago (t : Z) : Z := -39600000.

Definition start : World := mkWorld 1709632800000 [] [].

Definition elapse (ms : Z) (w : World) : World :=
  mkWorld (clock w + ms) (elkCalls w) (stdout w).

Definition request : Request :=
  mkRequest "GET" "/foo" [("user-agent", "curl/8.5.0")].

(** A downstream handler that answers with [status] after [ms] milliseconds. *)
Definition responds (status ms : Z) : M Response :=
  fun w => (Normal (mkResponse status "" ""), elapse ms w).

(** A downstream handler that raises [e] after [ms] milliseconds. *)
Definition raises (e : JsError) (ms : Z) : M Response :=
  fun w => (Throw e, elapse ms w).

(** An ECS formatter as far as the scenarios need it: it stamps the
    schema version on the object; and the base bindings of a process. *)
Definition stampsVersion (obj : gmap string Value) : gmap string Value :=
  <[ "ecs.version" := JStr "8.10.0" ]> obj.

Definition baseBindings : list (string * Value) :=
  [ ("process.pid", JNum (Int 4242)); ("host.hostname", JStr "web-1") ].

Definition boom : JsError := mkError "boom" (JStr "Error: boom") "Error".

End Scenarios.

Import Scenarios.

(** ** Drivers and reference functions for the further properties *)

Module Drivers.

(** The threshold table as the specification words it: four environments,
    [info] for anything else. *)
Definition thresholdFor (environment : option string) : string :=
  match environment with
  | None => "info"
  | Some name =>
      if String.eqb name "development" then "debug"
      else if String.eqb name "test" then "info"
      else if String.eqb name "staging" then "warn"
      else if String.eqb name "production" then "error"
      else "info"
  end.

(** The property names every object literal inherits. *)
Definition inheritedNames : list string :=
  [ "constructor"; "__defineGetter__"; "__defineSetter__"; "hasOwnProperty";
    "__lookupGetter__"; "__lookupSetter__"; "isPrototypeOf";
    "propertyIsEnumerable"; "toString"; "valueOf"; "toLocaleString" ].

(** Events emitted on a stream one after the other; a throwing [emit] ends
    the run. *)
Fixpoint emit_all (emitter : Emitter) (events : list (string * Value)) : M unit :=
  match events with
  | [] => mret tt
  | ev :: rest => emit emitter (fst ev) (snd ev);; emit_all emitter rest
  end.

Definition deliveryEvents : list string := ["insertError"; "unknown"; "insert"; "error"].

(** The console label of a delivery event. *)
Definition label_of (eventName : string) : string :=
  if String.eqb eventName "insertError" then "ELK INSERTERROR"
  else if String.eqb eventName "unknown" then "ELK UNKNOWN"
  else if String.eqb eventName "insert" then "ELK INSERT"
  else "ELK ERROR".

(** The middleware mounted [n] times around the same downstream handler. *)
Fixpoint mounted (n : nat) (context : Context) : M Response :=
  match n with
  | O => next context
  | S k => responseLoggerMiddleware (mkContext (req context) (mounted k context))
  end.

(** Days of the year before the first of month [m] (0 = January). *)
Definition DaysBefore (m leap : Z) : Z :=
  match m with
  | 0 => 0
  | 1 => 31
  | 2 => 59 + leap
  | 3 => 90 + leap
  | 4 => 120 + leap
  | 5 => 151 + leap
  | 6 => 181 + leap
  | 7 => 212 + leap
  | 8 => 243 + leap
  | 9 => 273 + leap
  | 10 => 304 + leap
  | _ => 334 + leap
  end.

(** No character of the string is a full stop. *)
Fixpoint dotless (s : string) : bool :=
  match s with
  | EmptyString => true
  | String c rest => (negb (Ascii.eqb c ".") && dotless rest)%bool
  end.

End Drivers.

Import Drivers.

(** * Properties *)

(** ** Calendar arithmetic *)

Section Calendar.

Lemma DayFromYear_succ (y : Z) : DayFromYear (y + 1) = DayFromYear y + DaysInYear y.
Proof.
  unfold DayFromYear, DaysInYear.
  destruct (Z.eqb_spec (y mod 4) 0), (Z.eqb_spec (y mod 100) 0),
    (Z.eqb_spec (y mod 400) 0); cbn [negb]; Z.div_mod_to_equations; lia.
Qed.

Lemma DaysInYear_cases (y : Z) : DaysInYear y = 365 \/ DaysInYear y = 366.
Proof.
  unfold DaysInYear.
  destruct (y mod 4 =? 0), (y mod 100 =? 0), (y mod 400 =? 0); cbn; auto.
Qed.

Lemma DayFromYear_mono (y1 y2 : Z) : y1 <= y2 -> DayFromYear y1 <= DayFromYear y2.
Proof. unfold DayFromYear. intros H. Z.div_mod_to_equations. lia. Qed.

Lemma YearFromDay_spec (d : Z) :
  DayFromYear (YearFromDay d) <= d < DayFromYear (YearFromDay d + 1).
Proof.
  unfold YearFromDay.
  set (y := 1970 + 400 * d / 146097).
  assert (Hy : DayFromYear (y - 1) <= d < DayFromYear (y + 2)).
  { subst y. unfold DayFromYear. Z.div_mod_to_equations. lia. }
  destruct (Z.leb_spec (DayFromYear (y + 1)) d).
  - replace (y + 1 + 1) with (y + 2) by lia. lia.
  - destruct (Z.leb_spec (DayFromYear y) d).
    + lia.
    + replace (y - 1 + 1) with y by lia. lia.
Qed.

(** [YearFromTime t] is the largest year that starts no later than [t]. *)
Lemma YearFromTime_largest (t y : Z) :
  DayFromYear y <= Day t <-> y <= YearFromTime t.
Proof.
  unfold YearFromTime. pose proof (YearFromDay_spec (Day t)) as [Hlo Hhi].
  split; intros H.
  - destruct (Z.le_gt_cases y (YearFromDay (Day t))) as [|Hgt]; [assumption|].
    pose proof (DayFromYear_mono (YearFromDay (Day t) + 1) y ltac:(lia)). lia.
  - pose proof (DayFromYear_mono y (YearFromDay (Day t)) H). lia.
Qed.

Lemma DayWithinYear_bounds (t : Z) :
  0 <= DayWithinYear t < 365 + InLeapYear t.
Proof.
  unfold DayWithinYear, InLeapYear, YearFromTime.
  pose proof (YearFromDay_spec (Day t)) as [Hlo Hhi].
  rewrite DayFromYear_succ in Hhi.
  destruct (DaysInYear_cases (YearFromDay (Day t))) as [E | E]; rewrite E in *; cbn; lia.
Qed.

Lemma InLeapYear_cases (t : Z) : InLeapYear t = 0 \/ InLeapYear t = 1.
Proof. unfold InLeapYear. destruct (_ =? _); auto. Qed.

Lemma MonthFromTime_bounds (t : Z) : 0 <= MonthFromTime t <= 11.
Proof.
  unfold MonthFromTime.
  repeat match goal with |- context [if ?b then _ else _] => destruct b end; lia.
Qed.

Lemma DateFromTime_bounds (t : Z) : 1 <= DateFromTime t <= 31.
Proof.
  pose proof (DayWithinYear_bounds t) as Hd.
  destruct (InLeapYear_cases t) as [E | E];
    unfold DateFromTime, MonthFromTime; rewrite E in *;
    repeat match goal with
           | |- context [if ?x <? ?y then _ else _] => destruct (Z.ltb_spec x y)
           end; lia.
Qed.

(** The calendar fields depend on the instant only through its day number. *)
Lemma calendar_fields_same_day (t1 t2 : Z) :
  Day t1 = Day t2 ->
  YearFromTime t1 = YearFromTime t2 /\
  MonthFromTime t1 = MonthFromTime t2 /\
  DateFromTime t1 = DateFromTime t2.
Proof.
  intros H.
  unfold DateFromTime, MonthFromTime, InLeapYear, DayWithinYear, YearFromTime.
  rewrite H. auto.
Qed.

End Calendar.

(** ** Decimal rendering *)

Section Rendering.

Lemma range_In (lo n z : Z) :
  lo <= z < lo + n -> In z (range lo n).
Proof.
  intros H. unfold range. apply in_map_iff.
  exists (Z.to_nat (z - lo)). split; [lia|].
  apply in_seq. lia.
Qed.

Lemma padStart_two_digits (n : Z) :
  0 <= n < 100 -> padStart 2 "0" (pretty n) = two_digits n.
Proof.
  intros H.
  assert (Hall : forallb (fun k => String.eqb (padStart 2 "0" (pretty k)) (two_digits k))
                   (range 0 100) = true) by (vm_compute; reflexivity).
  rewrite forallb_forall in Hall.
  apply String.eqb_eq, Hall, range_In. lia.
Qed.

Lemma pretty_four_digits (y : Z) :
  1000 <= y <= 9999 -> pretty y = four_digits y.
Proof.
  intros H.
  assert (Hall : forallb (fun k => String.eqb (pretty k) (four_digits k))
                   (range 1000 9000) = true) by (vm_compute; reflexivity).
  rewrite forallb_forall in Hall.
  apply String.eqb_eq, Hall, range_In. lia.
Qed.

(** A rendered integer never starts with the letter of [NaN]. *)
Lemma pretty_N_go_head (x : N) (s : string) :
  (0 < x)%N ->
  exists c rest, pretty_N_go x s = String c rest /\ c <> "N"%char.
Proof.
  revert s. induction (N.lt_wf_0 x) as [x _ IH]; intros s Hx.
  rewrite pretty_N_go_step by assumption.
  destruct (N.eq_dec (x `div` 10)%N 0%N) as [E | E].
  - rewrite E, pretty_N_go_0. eexists _, _. split; [reflexivity|].
    unfold pretty_N_char. repeat case_match; discriminate.
  - apply IH.
    + apply N.div_lt; [assumption | reflexivity].
    + apply N.neq_0_lt_0. assumption.
Qed.

Lemma pretty_Z_head (z : Z) :
  exists c rest, pretty z = String c rest /\ c <> "N"%char.
Proof.
  destruct z as [| p | p]; unfold pretty, pretty_Z.
  - eexists _, _. split; [reflexivity | discriminate].
  - unfold pretty, pretty_positive, pretty, pretty_N.
    destruct (decide (N.pos p = 0%N)); [discriminate|].
    apply pretty_N_go_head. lia.
  - eexists _, _. split; [reflexivity | discriminate].
Qed.

End Rendering.

(** ** The index partition key *)

Section PartitionKey.

Variable Date_parse : string -> Number.
Variable LocalTZA : Z -> Z.

Lemma getIndexFromLogTime_valid (logTime : LogTime) (t : Z) :
  DateValue (new_Date Date_parse logTime) = Int t ->
  getIndexFromLogTime Date_parse LocalTZA logTime =
    "logstash-" +:+ pretty (YearFromTime (LocalTime LocalTZA t))
    +:+ "." +:+ two_digits (MonthFromTime (LocalTime LocalTZA t) + 1)
    +:+ "." +:+ two_digits (DateFromTime (LocalTime LocalTZA t)).
Proof.
  intros Hvalid.
  unfold getIndexFromLogTime, getFullYear, getMonth, getDate.
  rewrite Hvalid. cbn [Number_add Number_toString].
  pose proof (MonthFromTime_bounds (LocalTime LocalTZA t)).
  pose proof (DateFromTime_bounds (LocalTime LocalTZA t)).
  rewrite !padStart_two_digits by lia. reflexivity.
Qed.

Lemma getIndexFromLogTime_same_day (lt1 lt2 : LogTime) (t1 t2 : Z) :
  DateValue (new_Date Date_parse lt1) = Int t1 ->
  DateValue (new_Date Date_parse lt2) = Int t2 ->
  Day (LocalTime LocalTZA t1) = Day (LocalTime LocalTZA t2) ->
  getIndexFromLogTime Date_parse LocalTZA lt1 = getIndexFromLogTime Date_parse LocalTZA lt2.
Proof.
  intros H1 H2 Hday.
  rewrite (getIndexFromLogTime_valid lt1 t1 H1), (getIndexFromLogTime_valid lt2 t2 H2).
  destruct (calendar_fields_same_day _ _ Hday) as (-> & -> & ->). reflexivity.
Qed.

End PartitionKey.

(** C5 (as amended). For every log time that is a valid date, the partition
    key is determined by the calendar date of the instant in the local time
    zone: the month is from 1 to 12 and the day from 1 to 31, and for a local
    year from 1000 to 9999 the key is exactly [logstash-YYYY.MM.DD] with a
    four-digit year and two-digit zero-padded month and day; two log times
    on the same local day get the same key; and the instant
    2024-03-05T10:00:00Z gets [logstash-2024.03.05] wherever local time is
    from ten hours behind to just under fourteen hours ahead of UTC. *)
Theorem C5_partition_key_of_local_date
    (Date_parse : string -> Number) (LocalTZA : Z -> Z) (logTime : LogTime) (t : Z) :
  DateValue (new_Date Date_parse logTime) = Int t ->
  let key := getIndexFromLogTime Date_parse LocalTZA logTime in
  let year := YearFromTime (LocalTime LocalTZA t) in
  let month := MonthFromTime (LocalTime LocalTZA t) + 1 in
  let day := DateFromTime (LocalTime LocalTZA t) in
  (1 <= month <= 12 /\ 1 <= day <= 31) /\
  (1000 <= year <= 9999 -> key = IndexPartitionKey year month day) /\
  (forall logTime' t',
      DateValue (new_Date Date_parse logTime') = Int t' ->
      Day (LocalTime LocalTZA t') = Day (LocalTime LocalTZA t) ->
      getIndexFromLogTime Date_parse LocalTZA logTime' = key) /\
  (t = 1709632800000 -> -36000000 <= LocalTZA t < 50400000 ->
   key = "logstash-2024.03.05").
Proof.
  intros Hvalid key year month day.
  pose proof (MonthFromTime_bounds (LocalTime LocalTZA t)) as Hm.
  pose proof (DateFromTime_bounds (LocalTime LocalTZA t)) as Hd.
  assert (Hkey : key = "logstash-" +:+ pretty year +:+ "." +:+ two_digits month
                       +:+ "." +:+ two_digits day)
    by (apply getIndexFromLogTime_valid; assumption).
  split; [subst month day; lia|].
  split; [|split].
  - intros Hyear. rewrite Hkey. unfold IndexPartitionKey.
    rewrite (pretty_four_digits year Hyear). reflexivity.
  - intros logTime' t' Hvalid' Hday.
    apply (getIndexFromLogTime_same_day Date_parse LocalTZA logTime' logTime t' t);
      assumption.
  - intros -> Hoffset. rewrite Hkey. subst year month day.
    assert (Hday : Day (LocalTime LocalTZA 1709632800000) = Day 1709632800000).
    { unfold LocalTime, Day, msPerDay. Z.div_mod_to_equations. lia. }
    destruct (calendar_fields_same_day _ _ Hday) as (-> & -> & ->).
    vm_compute. reflexivity.
Qed.

Lemma C5_partition_key_of_local_date_witness :
  getIndexFromLogTime Date_parse_iso UTC (LtString "2024-03-05T10:00:00Z")
  = "logstash-2024.03.05".
Proof.
  refine (proj2 (proj2 (proj2
    (C5_partition_key_of_local_date Date_parse_iso UTC
       (LtString "2024-03-05T10:00:00Z") 1709632800000 _))) _ _).
  - vm_compute. reflexivity.
  - reflexivity.
  - unfold UTC. lia.
Defined.

(** C5 (as stated) fails: the year is not padded, so the valid log time
    0999-06-15T12:00:00Z gets a key with a three-digit year; and the key
    follows the local date, so eleven hours behind UTC the instant
    2024-03-05T10:00:00Z belongs to the fourth of March. *)
Lemma C5_year_unpadded_and_local_date :
  (getIndexFromLogTime Date_parse_iso UTC (LtString "0999-06-15T12:00:00Z")
   = "logstash-999.06.15" /\
   getIndexFromLogTime Date_parse_iso UTC (LtString "0999-06-15T12:00:00Z")
   <> IndexPartitionKey 999 6 15) /\
  (getIndexFromLogTime Date_parse_iso Pago_Pago
     (LtString "2024-03-05T10:00:00Z")
   = "logstash-2024.03.04" /\
   getIndexFromLogTime Date_parse_iso Pago_Pago
     (LtString "2024-03-05T10:00:00Z")
   <> "logstash-2024.03.05").
Proof.
  repeat split; try (vm_compute; reflexivity); vm_compute; discriminate.
Qed.

(** C9. A log time that is not a valid date does not make
    [getIndexFromLogTime] throw: it returns [logstash-NaN.NaN.NaN], which is
    the key of no instant at all, the current one included. *)
Theorem C9_invalid_log_time_key
    (Date_parse : string -> Number) (LocalTZA : Z -> Z) (logTime : LogTime) :
  DateValue (new_Date Date_parse logTime) = NaN ->
  getIndexFromLogTime Date_parse LocalTZA logTime = "logstash-NaN.NaN.NaN" /\
  forall now : Z,
    Z.abs now <= 8640000000000000 ->
    getIndexFromLogTime Date_parse LocalTZA (LtNumber (Int now))
    <> getIndexFromLogTime Date_parse LocalTZA logTime.
Proof.
  intros Hinvalid.
  assert (Hkey : getIndexFromLogTime Date_parse LocalTZA logTime = "logstash-NaN.NaN.NaN").
  { unfold getIndexFromLogTime, getFullYear, getMonth, getDate.
    rewrite Hinvalid. reflexivity. }
  split; [assumption|].
  intros now Hrange. rewrite Hkey.
  assert (Hnow : DateValue (new_Date Date_parse (LtNumber (Int now))) = Int now).
  { cbn. destruct (Z.ltb_spec 8640000000000000 (Z.abs now)); [lia | reflexivity]. }
  rewrite (getIndexFromLogTime_valid Date_parse LocalTZA _ now Hnow).
  destruct (pretty_Z_head (YearFromTime (LocalTime LocalTZA now))) as (c & rest & -> & Hc).
  cbn. intros Heq. injection Heq as Heq _. congruence.
Qed.

Lemma C9_invalid_log_time_key_witness :
  getIndexFromLogTime Date_parse_iso UTC (LtString "not a date")
  = "logstash-NaN.NaN.NaN".
Proof.
  refine (proj1 (C9_invalid_log_time_key Date_parse_iso UTC
                   (LtString "not a date") _)).
  vm_compute. reflexivity.
Defined.

(** ** The logging helpers *)

Section Helpers.

Lemma spread_lookup (target source : gmap string Value) (k : string) :
  spread target source !! k =
  match source !! k with
  | Some v => Some v
  | None => target !! k
  end.
Proof.
  unfold spread. rewrite lookup_union.
  destruct (source !! k), (target !! k); reflexivity.
Qed.

Lemma spread_lookup_source (target source : gmap string Value) (k : string) (v : Value) :
  source !! k = Some v -> spread target source !! k = Some v.
Proof. intros H. rewrite spread_lookup, H. reflexivity. Qed.

Lemma spread_lookup_tag (key k : string) (tag : Value) (source : gmap string Value) :
  source !! k = None ->
  spread {[ key := tag ]} source !! k = if decide (key = k) then Some tag else None.
Proof.
  intros H. rewrite spread_lookup, H.
  destruct (decide (key = k)) as [-> | Hne].
  - apply lookup_singleton_eq.
  - apply lookup_singleton_ne. assumption.
Qed.

End Helpers.

Lemma helper_of_run (s : Severity) (tag : string) (data : gmap string Value) (w : World) :
  helper_of s tag data w =
  (Normal tt,
   mkWorld (clock w)
     (elkCalls w ++ [mkCall s (spread {[ category_key s := JStr tag ]} data)])
     (stdout w)).
Proof. destruct s; reflexivity. Qed.

(** C10. The category tag travels under a key that depends on the severity:
    [logError] files it as [errorType], [logWarn] as [warningType],
    [logInfo] as [infoType] and [logDebug] as [debugType], and a payload that
    has none of these four keys comes out with the key of its own severity
    and none of the other three. *)
Theorem C10_category_key_per_severity
    (tag : string) (data : gmap string Value) (w : World) :
  (forall s, data !! category_key s = None) ->
  let emitted (log : string -> gmap string Value -> M unit) :=
    elkCalls (snd (log tag data w)) in
  (exists p, emitted logError = elkCalls w ++ [mkCall Error p] /\
     p !! "errorType" = Some (JStr tag) /\ p !! "warningType" = None /\
     p !! "infoType" = None /\ p !! "debugType" = None) /\
  (exists p, emitted logWarn = elkCalls w ++ [mkCall Warn p] /\
     p !! "warningType" = Some (JStr tag) /\ p !! "errorType" = None /\
     p !! "infoType" = None /\ p !! "debugType" = None) /\
  (exists p, emitted logInfo = elkCalls w ++ [mkCall Info p] /\
     p !! "infoType" = Some (JStr tag) /\ p !! "errorType" = None /\
     p !! "warningType" = None /\ p !! "debugType" = None) /\
  (exists p, emitted logDebug = elkCalls w ++ [mkCall Debug p] /\
     p !! "debugType" = Some (JStr tag) /\ p !! "errorType" = None /\
     p !! "warningType" = None /\ p !! "infoType" = None).
Proof.
  intros Hfree emitted.
  pose proof (Hfree Error) as He. pose proof (Hfree Warn) as Hw.
  pose proof (Hfree Info) as Hi. pose proof (Hfree Debug) as Hd.
  cbn [category_key] in He, Hw, Hi, Hd.
  repeat split; eexists; (split; [reflexivity|]);
    rewrite !spread_lookup_tag by assumption; repeat split.
Qed.

Lemma C10_category_key_per_severity_witness :
  exists p,
    elkCalls (snd (logWarn "ResponseWarning" {[ "status" := JNum (Int 404) ]}
                     (mkWorld 0 [] []))) = [mkCall Warn p] /\
    p !! "warningType" = Some (JStr "ResponseWarning") /\ p !! "errorType" = None /\
    p !! "infoType" = None /\ p !! "debugType" = None.
Proof.
  refine (proj1 (proj2 (C10_category_key_per_severity "ResponseWarning"
                          {[ "status" := JNum (Int 404) ]} (mkWorld 0 [] []) _))).
  intros s; destruct s; vm_compute; reflexivity.
Defined.

(** ** The written record *)

Section WrittenRecord.

Variable formatLog : gmap string Value -> gmap string Value.
Variable bindings : list (string * Value).

Hypothesis formatLog_keeps : forall obj k,
  In k envelopeKeys -> formatLog obj !! k = obj !! k.
Hypothesis bindings_apart : forall kv,
  In kv bindings -> ~ In (fst kv) envelopeKeys.

Lemma list_to_map_reverse_to_list (m : gmap string Value) :
  list_to_map (reverse (map_to_list m)) = m.
Proof.
  rewrite <- (list_to_map_to_list m) at 2.
  apply list_to_map_proper.
  - rewrite fmap_reverse, reverse_Permutation. apply NoDup_fst_map_to_list.
  - apply reverse_Permutation.
Qed.

Lemma bindings_lookup_envelope (k : string) :
  In k envelopeKeys ->
  (list_to_map (reverse bindings) : gmap string Value) !! k = None.
Proof.
  intros Hk. apply not_elem_of_list_to_map_1.
  rewrite fmap_reverse, elem_of_reverse, list_elem_of_fmap.
  intros (kv & -> & Hin). apply list_elem_of_In in Hin.
  exact (bindings_apart kv Hin Hk).
Qed.

(** A key of the envelope, read back from the written line: the object's
    value when it has one that is written, else the envelope's own. *)
Lemma record_lookup_envelope
    (env : gmap string string) (timestamp : string) (call : LogCall) (k : string) :
  In k envelopeKeys ->
  JSON_parse (asJson formatLog bindings env timestamp call) !! k =
  match mixinMergeStrategy (payload call) (mixin env) !! k with
  | Some v =>
      if is_written v then Some v
      else (list_to_map [ ("@timestamp", JStr timestamp);
                          ("log.level", JStr (levelLabel (severity call))) ]
            : gmap string Value) !! k
  | None =>
      (list_to_map [ ("@timestamp", JStr timestamp);
                     ("log.level", JStr (levelLabel (severity call))) ]
       : gmap string Value) !! k
  end.
Proof.
  intros Hk. unfold JSON_parse, asJson. cbv zeta.
  set (obj := mixinMergeStrategy (payload call) (mixin env)).
  rewrite !reverse_app, !list_to_map_app, list_to_map_reverse_to_list.
  rewrite !lookup_union, map_lookup_filter, (formatLog_keeps obj k Hk).
  rewrite (bindings_lookup_envelope k Hk).
  destruct (obj !! k) as [v |]; cbn.
  - destruct (is_written v) eqn:E.
    + rewrite option_guard_True by reflexivity. cbn.
      destruct (_ !! k); reflexivity.
    + rewrite option_guard_False by discriminate. cbn.
      destruct (_ !! k); reflexivity.
  - destruct (_ !! k); reflexivity.
Qed.

End WrittenRecord.




(** ** The request boundary *)

Ltac run_middleware Hnext :=
  unfold responseLoggerMiddleware, mbind, M_bind, mret, M_ret, try_catch,
    Date_now, throw, logError, logWarn, logInfo, elkLogger, elk_call;
  cbn beta iota; rewrite Hnext; cbn beta iota.

Ltac by_status r :=
  destruct (Z.geb_spec (status r) 500);
  [| destruct (Z.geb_spec (status r) 400)].

(** Lookups of literal keys in an object literal are settled by evaluation. *)
Ltac read_props := repeat apply conj; vm_compute; reflexivity.

(** C1. Whatever the downstream handler does, return a response or raise,
    the middleware adds exactly one call on the logger to the calls made by
    the time the handler settles. *)
Theorem C1_exactly_one_log_call (context : Context) (w : World) :
  exists call,
    elkCalls (snd (responseLoggerMiddleware context w)) =
    elkCalls (snd (next context w)) ++ [call].
Proof.
  destruct (next context w) as [[r | e] w1] eqn:Hnext; run_middleware Hnext.
  - by_status r; eexists; reflexivity.
  - eexists; reflexivity.
Qed.

(** C2. A response from downstream is classified by its status: 500 and
    above gives an error call tagged [ResponseError], 400 to 499 a warn call
    tagged [ResponseWarning], below 400 an info call tagged
    [ResponseSuccess]. *)
Theorem C2_classification_by_status
    (context : Context) (w w1 : World) (r : Response) :
  next context w = (Normal r, w1) ->
  exists call,
    elkCalls (snd (responseLoggerMiddleware context w)) = elkCalls w1 ++ [call] /\
    (500 <= status r ->
     severity call = Error /\ payload call !! "errorType" = Some (JStr "ResponseError")) /\
    (400 <= status r < 500 ->
     severity call = Warn /\ payload call !! "warningType" = Some (JStr "ResponseWarning")) /\
    (status r < 400 ->
     severity call = Info /\ payload call !! "infoType" = Some (JStr "ResponseSuccess")).
Proof.
  intros Hnext. run_middleware Hnext.
  by_status r; eexists; (split; [reflexivity|]); cbn [severity payload];
    repeat apply conj; intros Hclass; try (exfalso; lia); read_props.
Qed.

(** C7. For a response of any status class the call's payload carries the
    summary [<METHOD> <URL> - <STATUS>] with the method in upper case, the
    method, the URL, the status, the time elapsed since entry and the
    [user-agent] header, and the middleware returns the very response it was
    given. *)
Theorem C7_response_payload_and_result
    (context : Context) (w w1 : World) (r : Response) :
  next context w = (Normal r, w1) ->
  let METHOD := toUpperCase (method (req context)) in
  fst (responseLoggerMiddleware context w) = Normal r /\
  exists call,
    elkCalls (snd (responseLoggerMiddleware context w)) = elkCalls w1 ++ [call] /\
    payload call !! "message" =
      Some (JStr (METHOD +:+ " " +:+ url (req context) +:+ " - " +:+ pretty (status r))) /\
    payload call !! "method" = Some (JStr METHOD) /\
    payload call !! "url" = Some (JStr (url (req context))) /\
    payload call !! "status" = Some (JNum (Int (status r))) /\
    payload call !! "duration" = Some (JNum (Int (clock w1 - clock w))) /\
    payload call !! "userAgent" =
      Some (Headers_get (headers (req context)) "user-agent").
Proof.
  intros Hnext METHOD. subst METHOD. run_middleware Hnext.
  by_status r; (split; [reflexivity|]); eexists; (split; [reflexivity|]);
    cbn [payload]; read_props.
Qed.

(** C3. When the downstream handler raises, the middleware makes exactly
    one error call tagged [UnhandledError] whose payload carries the error's
    message and stack, the URL, the method, the [user-agent] header and,
    under [context], the name of the error's constructor and the time elapsed
    since entry; then it raises the same error. *)
Theorem C3_unhandled_failure_logged_and_rethrown
    (context : Context) (w w1 : World) (e : JsError) :
  next context w = (Throw e, w1) ->
  fst (responseLoggerMiddleware context w) = Throw e /\
  exists p,
    elkCalls (snd (responseLoggerMiddleware context w)) =
      elkCalls w1 ++ [mkCall Error p] /\
    p !! "errorType" = Some (JStr "UnhandledError") /\
    p !! "error" = Some (JStr (message e)) /\
    p !! "stack" = Some (stack e) /\
    p !! "url" = Some (JStr (url (req context))) /\
    p !! "method" = Some (JStr (toUpperCase (method (req context)))) /\
    p !! "userAgent" = Some (Headers_get (headers (req context)) "user-agent") /\
    p !! "context" =
      Some (JObj (<[ "errorType" := JStr (constructor_name e) ]>
                    {[ "duration" := JNum (Int (clock w1 - clock w)) ]})).
Proof.
  intros Hnext. run_middleware Hnext.
  split; [reflexivity|]. eexists. split; [reflexivity|]. read_props.
Qed.

Lemma C2_classification_by_status_witness :
  exists call,
    elkCalls (snd (responseLoggerMiddleware (mkContext request (responds 404 7)) start))
    = [call] /\
    severity call = Warn /\
    payload call !! "warningType" = Some (JStr "ResponseWarning").
Proof.
  destruct (C2_classification_by_status (mkContext request (responds 404 7))
              start (elapse 7 start) (mkResponse 404 "" "") eq_refl)
    as (call & Hcalls & _ & Hwarn & _).
  exists call. split; [exact Hcalls|]. apply Hwarn. cbn. lia.
Defined.

Lemma C7_response_payload_and_result_witness :
  fst (responseLoggerMiddleware (mkContext request (responds 200 7)) start)
  = Normal (mkResponse 200 "" "") /\
  exists call,
    elkCalls (snd (responseLoggerMiddleware (mkContext request (responds 200 7)) start))
    = [call] /\
    payload call !! "message" = Some (JStr "GET /foo - 200") /\
    payload call !! "duration" = Some (JNum (Int 7)).
Proof.
  destruct (C7_response_payload_and_result (mkContext request (responds 200 7))
              start (elapse 7 start) (mkResponse 200 "" "") eq_refl)
    as (Hresult & call & Hcalls & Hmessage & _ & _ & _ & Hduration & _).
  split; [exact Hresult|]. exists call.
  split; [exact Hcalls|]. split; [exact Hmessage | exact Hduration].
Defined.

Lemma C3_unhandled_failure_logged_and_rethrown_witness :
  fst (responseLoggerMiddleware (mkContext request (raises boom 7)) start) = Throw boom /\
  exists p,
    elkCalls (snd (responseLoggerMiddleware (mkContext request (raises boom 7)) start))
    = [mkCall Error p] /\
    p !! "errorType" = Some (JStr "UnhandledError") /\
    p !! "error" = Some (JStr "boom").
Proof.
  destruct (C3_unhandled_failure_logged_and_rethrown (mkContext request (raises boom 7))
              start (elapse 7 start) boom eq_refl)
    as (Hresult & p & Hcalls & Htag & Herror & _).
  split; [exact Hresult|]. exists p.
  split; [exact Hcalls|]. split; [exact Htag | exact Herror].
Defined.

(** ** The severity threshold *)

Lemma logLevel_fallback (env : gmap string string) (name : string) :
  env !! "APPLICATION_ENV" = Some name ->
  LOG_LEVELS !! name = None ->
  Object_prototype_get name = JUndefined ->
  logLevel env = JStr "info".
Proof.
  intros Henv Hown Hproto.
  unfold logLevel, Deno_env_get, get_property. rewrite Henv. cbn [ToPropertyKey].
  rewrite Hown, Hproto. reflexivity.
Qed.

Lemma logLevel_missing (env : gmap string string) :
  env !! "APPLICATION_ENV" = None -> logLevel env = JStr "info".
Proof.
  intros Henv. unfold logLevel, Deno_env_get. rewrite Henv. vm_compute. reflexivity.
Qed.

(** C6. The four known environments resolve by the table, a missing one
    and an unknown one such as [qa] resolve to [info]; but the lookup also
    sees what every object inherits, so the environment [constructor]
    resolves to a function and not to [info]. *)
Theorem C6_logLevel_table_and_inherited_key :
  let resolve (name : string) := logLevel {[ "APPLICATION_ENV" := name ]} in
  resolve "development" = JStr "debug" /\
  resolve "test" = JStr "info" /\
  resolve "staging" = JStr "warn" /\
  resolve "production" = JStr "error" /\
  logLevel ∅ = JStr "info" /\
  resolve "qa" = JStr "info" /\
  resolve "constructor" = JFun "Object" /\
  resolve "constructor" <> JStr "info".
Proof.
  cbv zeta. repeat apply conj; vm_compute; (reflexivity || discriminate).
Qed.

(** ** Delivery outcomes of the Elasticsearch stream *)

(** C8. Each of the four delivery events of the Elasticsearch stream has a
    listener, so emitting it completes normally, nothing is thrown; the
    listener writes one line to the console and makes no call on the logger
    that feeds the stream. *)
Theorem C8_delivery_outcomes_logged_to_console
    (Date_parse : string -> Number) (LocalTZA : Z -> Z) (env : gmap string string)
    (outcome : Value) (w : World) :
  let stream := streamToElasticSearch Date_parse LocalTZA env in
  let logged (label : string) :=
    (Normal true,
     mkWorld (clock w) (elkCalls w) (stdout w ++ [[JStr label; outcome]])) in
  emit stream "insert" outcome w = logged "ELK INSERT" /\
  emit stream "insertError" outcome w = logged "ELK INSERTERROR" /\
  emit stream "unknown" outcome w = logged "ELK UNKNOWN" /\
  emit stream "error" outcome w = logged "ELK ERROR".
Proof.
  cbv zeta. repeat apply conj; reflexivity.
Qed.

(** ** Scenarios of the specification, evaluated *)

Example scenario_status_503 :
  elkCalls (snd (responseLoggerMiddleware (mkContext request (responds 503 7)) start))
  = [mkCall Error
       (list_to_map
          [ ("errorType", JStr "ResponseError");
            ("message", JStr "GET /foo - 503");
            ("method", JStr "GET");
            ("url", JStr "/foo");
            ("status", JNum (Int 503));
            ("duration", JNum (Int 7));
            ("userAgent", JStr "curl/8.5.0") ])].
Proof. vm_compute. reflexivity. Qed.

Example scenario_lower_case_method_no_user_agent :
  elkCalls (snd (responseLoggerMiddleware
                   (mkContext (mkRequest "post" "/submit" []) (responds 201 3)) start))
  = [mkCall Info
       (list_to_map
          [ ("infoType", JStr "ResponseSuccess");
            ("message", JStr "POST /submit - 201");
            ("method", JStr "POST");
            ("url", JStr "/submit");
            ("status", JNum (Int 201));
            ("duration", JNum (Int 3));
            ("userAgent", JNull) ])].
Proof. vm_compute. reflexivity. Qed.

Example scenario_leap_day :
  getIndexFromLogTime Date_parse_iso UTC (LtString "2000-02-29T23:59:59.999Z")
  = "logstash-2000.02.29".
Proof. vm_compute. reflexivity. Qed.

Example scenario_epoch_number :
  getIndexFromLogTime Date_parse_iso UTC (LtNumber (Int 0)) = "logstash-1970.01.01".
Proof. vm_compute. reflexivity. Qed.

Example scenario_day_boundary :
  getIndexFromLogTime Date_parse_iso UTC (LtString "2024-12-31T23:59:59Z")
  = "logstash-2024.12.31" /\
  getIndexFromLogTime Date_parse_iso UTC (LtString "2025-01-01T00:00:00Z")
  = "logstash-2025.01.01".
Proof. split; vm_compute; reflexivity. Qed.

Example scenario_out_of_range_number :
  getIndexFromLogTime Date_parse_iso UTC (LtNumber (Int 8640000000000001))
  = "logstash-NaN.NaN.NaN".
Proof. vm_compute. reflexivity. Qed.

Example scenario_day_past_month_end :
  getIndexFromLogTime Date_parse_iso UTC (LtString "2024-02-30T00:00:00Z")
  = "logstash-2024.03.01".
Proof. vm_compute. reflexivity. Qed.

Example scenario_inherited_accessor_removed :
  logLevel {[ "APPLICATION_ENV" := "__proto__" ]} = JStr "info".
Proof. vm_compute. reflexivity. Qed.

(** * Further properties *)

(** ** Further properties: the logging streams *)

Section Streams.

Variable env : gmap string string.

Lemma streams_cases :
  (env !! "APPLICATION_ENV" = Some "development" /\
   streams env = [mkStream prettyStream (logLevel env)]) \/
  ((env !! "APPLICATION_ENV" = Some "production" \/
    env !! "APPLICATION_ENV" = Some "staging" \/
    env !! "APPLICATION_ENV" = Some "test") /\
   streams env = [mkStream process_stdout (logLevel env);
                  mkStream elasticSearchStream (logLevel env)]) \/
  ((forall name, env !! "APPLICATION_ENV" = Some name ->
      name <> "development" /\ name <> "production" /\
      name <> "staging" /\ name <> "test") /\
   streams env = [mkStream process_stdout (logLevel env)]).
Proof.
  unfold streams, Deno_env_get.
  destruct (env !! "APPLICATION_ENV") as [name |] eqn:Henv.
  - cbn [strict_equals Array_includes existsb].
    destruct (String.eqb_spec name "development") as [-> | Hdev].
    { left. split; reflexivity. }
    rewrite !(String.eqb_sym _ name).
    destruct (String.eqb_spec name "production") as [-> | Hprod].
    { right; left. split; [auto | reflexivity]. }
    destruct (String.eqb_spec name "staging") as [-> | Hstag].
    { right; left. split; [auto | reflexivity]. }
    destruct (String.eqb_spec name "test") as [-> | Htest].
    { right; left. split; [auto | reflexivity]. }
    right; right. split; [| reflexivity].
    intros name' [= <-]. auto.
  - right; right. split; [| reflexivity]. intros name' [=].
Qed.

End Streams.

(** X1. The Elasticsearch stream is one of the logging streams exactly when
    [APPLICATION_ENV] is [production], [staging] or [test]; it is then the
    second and last stream, and its level is the table's level for that
    environment, [error], [warn] or [info]. *)
Theorem streams_elasticsearch_enabled (env : gmap string string) :
  let enabled :=
    env !! "APPLICATION_ENV" = Some "production" \/
    env !! "APPLICATION_ENV" = Some "staging" \/
    env !! "APPLICATION_ENV" = Some "test" in
  ((exists entry, In entry (streams env) /\ stream entry = elasticSearchStream)
   <-> enabled) /\
  (enabled ->
   exists lvl,
     streams env = [mkStream process_stdout (JStr lvl);
                    mkStream elasticSearchStream (JStr lvl)] /\
     lvl = thresholdFor (env !! "APPLICATION_ENV") /\
     In lvl ["error"; "warn"; "info"]).
Proof.
  cbv zeta. split; [split|].
  - intros (entry & Hin & Hstream).
    destruct (streams_cases env) as [[_ Hs] | [[Hen Hs] | [_ Hs]]]; try assumption;
      rewrite Hs in Hin; cbn in Hin;
      destruct Hin as [<- | Hin]; try discriminate; destruct Hin.
  - intros Hen. exists (mkStream elasticSearchStream (logLevel env)).
    split; [| reflexivity].
    destruct (streams_cases env) as [[Hdev _] | [[_ Hs] | [Hother _]]].
    + destruct Hen as [H | [H | H]]; congruence.
    + rewrite Hs. cbn. auto.
    + destruct Hen as [H | [H | H]]; destruct (Hother _ H) as (? & ? & ? & ?);
        congruence.
  - intros Hen.
    assert (Hs : streams env = [mkStream process_stdout (logLevel env);
                                mkStream elasticSearchStream (logLevel env)]).
    { destruct (streams_cases env) as [[Hdev _] | [[_ Hs] | [Hother _]]].
      - destruct Hen as [H | [H | H]]; congruence.
      - exact Hs.
      - destruct Hen as [H | [H | H]]; destruct (Hother _ H) as (? & ? & ? & ?);
          congruence. }
    rewrite Hs. unfold logLevel, Deno_env_get.
    destruct Hen as [H | [H | H]]; rewrite H.
    + exists "error". repeat split; cbn; auto.
    + exists "warn". repeat split; cbn; auto.
    + exists "info". repeat split; cbn; auto.
Qed.

Lemma streams_elasticsearch_enabled_witness :
  exists lvl,
    streams {[ "APPLICATION_ENV" := "staging" ]}
    = [mkStream process_stdout (JStr lvl); mkStream elasticSearchStream (JStr lvl)] /\
    In lvl ["error"; "warn"; "info"].
Proof.
  destruct (proj2 (streams_elasticsearch_enabled {[ "APPLICATION_ENV" := "staging" ]}))
    as (lvl & Hs & _ & Hin).
  - right; left. vm_compute. reflexivity.
  - exists lvl. split; assumption.
Defined.

(** X2. The first logging stream is always the console: the pretty printer
    exactly when [APPLICATION_ENV] is [development], the process's standard
    output otherwise (a missing variable included); there are at most two
    streams and each carries the one level [logLevel]. *)
Theorem streams_console_first (env : gmap string string) :
  exists console rest,
    streams env = console :: rest /\
    (stream console = prettyStream <->
     env !! "APPLICATION_ENV" = Some "development") /\
    (stream console = process_stdout <->
     env !! "APPLICATION_ENV" <> Some "development") /\
    (length rest <= 1)%nat /\
    (forall entry, In entry (streams env) -> level entry = logLevel env).
Proof.
  destruct (streams_cases env) as [[Hdev Hs] | [[Hen Hs] | [Hother Hs]]];
    rewrite Hs; eexists _, _; (split; [reflexivity|]); cbn [stream length].
  - repeat split; try (intros; congruence || discriminate || lia).
    intros entry [<- | []]. reflexivity.
  - assert (Hnd : env !! "APPLICATION_ENV" <> Some "development")
      by (destruct Hen as [H | [H | H]]; rewrite H; discriminate).
    repeat split; try (intros; congruence || discriminate || lia).
    intros entry [<- | [<- | []]]; reflexivity.
  - assert (Hnd : env !! "APPLICATION_ENV" <> Some "development")
      by (intros H; destruct (Hother _ H) as (? & _); congruence).
    repeat split; try (intros; congruence || discriminate || lia).
    intros entry [<- | []]. reflexivity.
Qed.

(** ** Further properties: the severity threshold *)

Lemma Object_prototype_get_own (name : string) :
  ~ In name inheritedNames -> Object_prototype_get name = JUndefined.
Proof.
  intros Hnot. unfold Object_prototype_get.
  destruct (Object_prototype_methods !! name) as [v |] eqn:Hlook; [| reflexivity].
  exfalso. apply Hnot.
  apply elem_of_list_to_map_2 in Hlook.
  apply list_elem_of_In in Hlook. cbn in Hlook. cbn.
  repeat (destruct Hlook as [[= <- _] | Hlook]; [auto 15|]). destruct Hlook.
Qed.

(** X10. For every environment whose [APPLICATION_ENV] is missing or is not
    the name of a property objects inherit, [logLevel] is the level of the
    threshold table: [debug], [info], [warn] or [error] for the four known
    names, compared letter for letter, and [info] for every other name. *)
Theorem logLevel_refines_thresholdFor (env : gmap string string) :
  (forall name, env !! "APPLICATION_ENV" = Some name -> ~ In name inheritedNames) ->
  logLevel env = JStr (thresholdFor (env !! "APPLICATION_ENV")).
Proof.
  intros Hown. unfold logLevel, Deno_env_get, get_property.
  destruct (env !! "APPLICATION_ENV") as [name |] eqn:Henv; cbn [ToPropertyKey].
  - unfold thresholdFor.
    destruct (String.eqb_spec name "development") as [-> | Hdev]; [reflexivity|].
    destruct (String.eqb_spec name "test") as [-> | Htest]; [reflexivity|].
    destruct (String.eqb_spec name "staging") as [-> | Hstag]; [reflexivity|].
    destruct (String.eqb_spec name "production") as [-> | Hprod]; [reflexivity|].
    assert (Hnone : LOG_LEVELS !! name = None).
    { apply not_elem_of_list_to_map_1. cbn. rewrite list_elem_of_In. cbn.
      intros [H | [H | [H | [H | []]]]]; congruence. }
    rewrite Hnone, (Object_prototype_get_own name (Hown name eq_refl)). reflexivity.
  - vm_compute. reflexivity.
Qed.

Lemma logLevel_refines_thresholdFor_witness :
  logLevel {[ "APPLICATION_ENV" := "Production" ]} = JStr "info".
Proof.
  refine (eq_trans
            (logLevel_refines_thresholdFor {[ "APPLICATION_ENV" := "Production" ]} _) _).
  - intros name Hname. vm_compute in Hname. injection Hname as <-.
    cbn. intros H. repeat (destruct H as [H | H]; [discriminate|]). destruct H.
  - vm_compute. reflexivity.
Defined.

(** ** Further properties: the request boundary *)

Lemma middleware_run (context : Context) (w : World) :
  exists call,
    responseLoggerMiddleware context w =
    (fst (next context w),
     mkWorld (clock (snd (next context w)))
       (elkCalls (snd (next context w)) ++ [call])
       (stdout (snd (next context w)))).
Proof.
  destruct (next context w) as [[r | e] w1] eqn:Hnext; run_middleware Hnext.
  - destruct (status r >=? 500); [| destruct (status r >=? 400)];
      eexists; reflexivity.
  - eexists; reflexivity.
Qed.

(** X3. The middleware is transparent: it completes the way the downstream
    handler completed, with the same response or the same error, and apart
    from its one logger call it leaves the world as the handler left it; it
    never writes to the console and never touches the clock. *)
Theorem middleware_transparent (context : Context) (w : World) :
  fst (responseLoggerMiddleware context w) = fst (next context w) /\
  clock (snd (responseLoggerMiddleware context w)) = clock (snd (next context w)) /\
  stdout (snd (responseLoggerMiddleware context w)) = stdout (snd (next context w)).
Proof.
  destruct (middleware_run context w) as (call & ->). repeat split.
Qed.

(** X4. Mounted [n] times around one downstream handler, the middleware
    still completes the way the handler did, and the [n] boundaries add
    exactly [n] logger calls after the handler's own. *)
Theorem mounted_adds_one_call_per_layer (n : nat) (context : Context) (w : World) :
  fst (mounted n context w) = fst (next context w) /\
  stdout (snd (mounted n context w)) = stdout (snd (next context w)) /\
  exists calls,
    elkCalls (snd (mounted n context w)) = elkCalls (snd (next context w)) ++ calls /\
    length calls = n.
Proof.
  induction n as [| k IH].
  - cbn [mounted]. repeat split. exists []. rewrite app_nil_r. split; reflexivity.
  - cbn [mounted].
    destruct (middleware_run (mkContext (req context) (mounted k context)) w)
      as (call & ->).
    cbn [next fst snd clock elkCalls stdout].
    destruct IH as (Hfst & Hout & calls & Hcalls & Hlen).
    split; [exact Hfst|]. split; [exact Hout|].
    exists (calls ++ [call]). split.
    + rewrite Hcalls, app_assoc. reflexivity.
    + rewrite length_app, Hlen. cbn. lia.
Qed.

(** X5. The payloads the middleware builds never collide with the category
    key: whatever the request, the response or the error, its one call
    carries, under the key of the call's own severity, one of the four fixed
    tags, and it has none of the other severities' keys. *)
Theorem middleware_category_intact (context : Context) (w : World) :
  exists call tag,
    elkCalls (snd (responseLoggerMiddleware context w)) =
      elkCalls (snd (next context w)) ++ [call] /\
    payload call !! category_key (severity call) = Some (JStr tag) /\
    In tag ["ResponseError"; "ResponseWarning"; "ResponseSuccess"; "UnhandledError"] /\
    (forall s, s <> severity call -> payload call !! category_key s = None).
Proof.
  destruct (next context w) as [[r | e] w1] eqn:Hnext; run_middleware Hnext.
  - by_status r; eexists _, _; (split; [reflexivity|]);
      cbn [severity payload category_key];
      (split; [vm_compute; reflexivity|]);
      (split; [cbn; auto 6|]);
      intros s Hs; destruct s; try congruence; vm_compute; reflexivity.
  - eexists _, _; (split; [reflexivity|]);
      cbn [severity payload category_key];
      (split; [vm_compute; reflexivity|]);
      (split; [cbn; auto 6|]);
      intros s Hs; destruct s; try congruence; vm_compute; reflexivity.
Qed.

Lemma dom_spread_literal (key : string) (tag : Value) (props : list (string * Value)) :
  dom (spread {[ key := tag ]} (list_to_map props)) =@{gset string}
  list_to_set (key :: props.*1).
Proof.
  unfold spread. rewrite dom_union_L, dom_singleton_L, dom_list_to_map_L.
  cbn [list_to_set foldr]. apply union_comm_L.
Qed.

(** X6. The call's payload has exactly seven keys and no other: for a
    response the category key, [message], [method], [url], [status],
    [duration] and [userAgent]; for a failure [errorType], [error], [stack],
    [url], [method], [userAgent] and [context].  Nothing else of the request,
    the response or the error is logged. *)
Theorem middleware_payload_keys (context : Context) (w : World) :
  exists call,
    elkCalls (snd (responseLoggerMiddleware context w)) =
      elkCalls (snd (next context w)) ++ [call] /\
    dom (payload call) =@{gset string}
      match fst (next context w) with
      | Normal _ =>
          list_to_set [category_key (severity call); "message"; "method"; "url";
                       "status"; "duration"; "userAgent"]
      | Throw _ =>
          list_to_set ["errorType"; "error"; "stack"; "url"; "method";
                       "userAgent"; "context"]
      end.
Proof.
  destruct (next context w) as [[r | e] w1] eqn:Hnext; run_middleware Hnext.
  - by_status r; eexists; (split; [reflexivity|]);
      cbn [severity payload category_key fst]; apply dom_spread_literal.
  - eexists; (split; [reflexivity|]); cbn [payload fst]; apply dom_spread_literal.
Qed.

Lemma Headers_get_null_iff (h : list (string * string)) (name : string) :
  Headers_get h name = JNull <->
  forall kv, In kv h -> toLowerCase (fst kv) <> toLowerCase name.
Proof.
  unfold Headers_get.
  destruct (List.filter _ h) as [| kv rest] eqn:Hf.
  - split; [| reflexivity]. intros _ kv Hin Heq.
    assert (Hkv : In kv (List.filter
                           (fun kv => String.eqb (toLowerCase (fst kv)) (toLowerCase name)) h)).
    { apply filter_In. split; [assumption|]. apply String.eqb_eq. assumption. }
    rewrite Hf in Hkv. destruct Hkv.
  - split; [discriminate|]. intros Hnone. exfalso.
    assert (Hkv : In kv (List.filter
                           (fun kv => String.eqb (toLowerCase (fst kv)) (toLowerCase name)) h))
      by (rewrite Hf; left; reflexivity).
    apply filter_In in Hkv as [Hin Heq]. apply String.eqb_eq in Heq.
    exact (Hnone kv Hin Heq).
Qed.

(** X7. A request without a [user-agent] header, in any letter case, is
    still logged: [userAgent] is then [null], and it is [null] only then,
    on the response path and on the failure path alike. *)
Theorem middleware_user_agent_null (context : Context) (w : World) :
  exists call,
    elkCalls (snd (responseLoggerMiddleware context w)) =
      elkCalls (snd (next context w)) ++ [call] /\
    (payload call !! "userAgent" = Some JNull <->
     forall kv, In kv (headers (req context)) -> toLowerCase (fst kv) <> "user-agent").
Proof.
  assert (Hnull : forall v : Value, Some v = Some JNull <-> v = JNull)
    by (intros v; split; [intros [= ->]; reflexivity | intros ->; reflexivity]).
  pose proof (Headers_get_null_iff (headers (req context)) "user-agent") as Hget.
  change (toLowerCase "user-agent") with "user-agent" in Hget.
  destruct (next context w) as [[r | e] w1] eqn:Hnext; run_middleware Hnext.
  - by_status r; eexists; (split; [reflexivity|]); cbn [payload];
      match goal with
      | |- ?m !! "userAgent" = _ <-> _ =>
          replace (m !! "userAgent")
            with (Some (Headers_get (headers (req context)) "user-agent"))
            by (vm_compute; reflexivity)
      end; rewrite Hnull; exact Hget.
  - eexists; (split; [reflexivity|]); cbn [payload];
      match goal with
      | |- ?m !! "userAgent" = _ <-> _ =>
          replace (m !! "userAgent")
            with (Some (Headers_get (headers (req context)) "user-agent"))
            by (vm_compute; reflexivity)
      end; rewrite Hnull; exact Hget.
Qed.

(** ** Further properties: the logging helpers and the delivery events *)

Lemma world_eta (w : World) : mkWorld (clock w) (elkCalls w) (stdout w) = w.
Proof. destruct w; reflexivity. Qed.

Section Delivery.

Variable Date_parse : string -> Number.
Variable LocalTZA : Z -> Z.
Variable env : gmap string string.

Lemma emit_delivery_event (eventName : string) (arg : Value) (w : World) :
  In eventName deliveryEvents ->
  emit (streamToElasticSearch Date_parse LocalTZA env) eventName arg w =
  (Normal true,
   mkWorld (clock w) (elkCalls w) (stdout w ++ [[JStr (label_of eventName); arg]])).
Proof.
  intros [<- | [<- | [<- | [<- | []]]]]; reflexivity.
Qed.

End Delivery.

(** X9. Whatever sequence of delivery events the Elasticsearch stream emits,
    none is thrown; the console receives one labelled line per event, in
    the order of the events, and no call is made on the logger. *)
Theorem delivery_events_only_reach_console
    (Date_parse : string -> Number) (LocalTZA : Z -> Z) (env : gmap string string)
    (events : list (string * Value)) (w : World) :
  (forall ev, In ev events -> In (fst ev) deliveryEvents) ->
  emit_all (streamToElasticSearch Date_parse LocalTZA env) events w =
  (Normal tt,
   mkWorld (clock w) (elkCalls w)
     (stdout w ++ List.map (fun ev => [JStr (label_of (fst ev)); snd ev]) events)).
Proof.
  revert w. induction events as [| ev rest IH]; intros w Hall.
  - cbn [emit_all List.map]. rewrite app_nil_r, world_eta. reflexivity.
  - cbn [emit_all List.map]. unfold mbind, M_bind.
    rewrite emit_delivery_event by (apply Hall; left; reflexivity).
    rewrite IH by (intros ev' Hin; apply Hall; right; assumption).
    cbn [clock elkCalls stdout]. rewrite <- app_assoc. reflexivity.
Qed.

Lemma delivery_events_only_reach_console_witness :
  emit_all (streamToElasticSearch Date_parse_iso UTC ∅)
    [("insert", JNum (Int 3)); ("error", JStr "socket hang up")] start =
  (Normal tt,
   mkWorld (clock start) (elkCalls start)
     (stdout start ++ [[JStr "ELK INSERT"; JNum (Int 3)];
                       [JStr "ELK ERROR"; JStr "socket hang up"]])).
Proof.
  apply (delivery_events_only_reach_console Date_parse_iso UTC ∅
           [("insert", JNum (Int 3)); ("error", JStr "socket hang up")] start).
  intros ev [<- | [<- | []]]; cbn; auto 6.
Defined.


(** ** Further properties: the index partition key *)

Lemma pretty_N_char_dotless (k : N) : Ascii.eqb (pretty_N_char k) "." = false.
Proof. unfold pretty_N_char. repeat case_match; reflexivity. Qed.

Lemma pretty_N_go_dotless (x : N) (s : string) :
  dotless s = true -> dotless (pretty_N_go x s) = true.
Proof.
  revert s. induction (N.lt_wf_0 x) as [x _ IH]; intros s Hs.
  destruct (N.eq_dec x 0%N) as [-> | Hx].
  - rewrite pretty_N_go_0. assumption.
  - rewrite pretty_N_go_step by (apply N.neq_0_lt_0; assumption).
    apply IH.
    + apply N.div_lt; [apply N.neq_0_lt_0; assumption | reflexivity].
    + cbn [dotless]. rewrite pretty_N_char_dotless, Hs. reflexivity.
Qed.

Lemma pretty_Z_dotless (z : Z) : dotless (pretty z) = true.
Proof.
  assert (Hpos : forall p : positive, dotless (pretty p) = true).
  { intros p. unfold pretty, pretty_positive, pretty, pretty_N.
    destruct (decide (N.pos p = 0%N)); [reflexivity|].
    apply pretty_N_go_dotless. reflexivity. }
  destruct z as [| p | p].
  - reflexivity.
  - exact (Hpos p).
  - change (dotless (String "-" (pretty p)) = true).
    cbn [dotless]. rewrite (Hpos p). reflexivity.
Qed.

Lemma append_nil (s : string) : "" +:+ s = s.
Proof. reflexivity. Qed.

Lemma append_cons (c : ascii) (a s : string) : String c a +:+ s = String c (a +:+ s).
Proof. reflexivity. Qed.

Lemma split_at_dot (a a' b b' : string) :
  dotless a = true -> dotless a' = true ->
  a +:+ "." +:+ b = a' +:+ "." +:+ b' -> a = a' /\ b = b'.
Proof.
  revert a'. induction a as [| c a IH]; intros [| c' a'] Ha Ha' Heq;
    rewrite ?append_cons, ?append_nil in Heq; cbn [dotless] in Ha, Ha'.
  - injection Heq as ->. auto.
  - injection Heq as <- _. discriminate.
  - injection Heq as -> _. discriminate.
  - injection Heq as -> Heq.
    apply andb_prop in Ha as [_ Ha]. apply andb_prop in Ha' as [_ Ha'].
    destruct (IH a' Ha Ha' Heq) as [-> ->]. auto.
Qed.

Lemma digit_inj (a b : Z) :
  0 <= a <= 9 -> 0 <= b <= 9 -> digit a = digit b -> a = b.
Proof.
  intros Ha Hb Heq. unfold digit in Heq.
  apply (f_equal nat_of_ascii) in Heq.
  rewrite !nat_ascii_embedding in Heq by lia. lia.
Qed.

Lemma two_digits_inj (m m' : Z) :
  0 <= m < 100 -> 0 <= m' < 100 -> two_digits m = two_digits m' -> m = m'.
Proof.
  intros Hm Hm' Heq. unfold two_digits in Heq. injection Heq as Hhi Hlo.
  apply digit_inj in Hhi; [| Z.div_mod_to_equations; lia ..].
  apply digit_inj in Hlo; [| Z.div_mod_to_equations; lia ..].
  Z.div_mod_to_equations. lia.
Qed.

Lemma two_digits_append_inj (m m' : Z) (s s' : string) :
  two_digits m +:+ s = two_digits m' +:+ s' -> two_digits m = two_digits m' /\ s = s'.
Proof.
  unfold two_digits. rewrite !append_cons, !append_nil.
  intros Heq. injection Heq as -> -> ->. auto.
Qed.

(** The day number, rebuilt from year, month and day of the month. *)
Lemma Day_of_fields (t : Z) :
  Day t = DayFromYear (YearFromTime t)
          + DaysBefore (MonthFromTime t) (InLeapYear t) + DateFromTime t - 1.
Proof.
  assert (Hd : Day t = DayFromYear (YearFromTime t) + DayWithinYear t)
    by (unfold DayWithinYear; lia).
  rewrite Hd at 1. unfold DateFromTime, MonthFromTime.
  repeat match goal with
         | |- context [if ?x <? ?y then _ else _] => destruct (Z.ltb_spec x y)
         end; cbn [DaysBefore]; lia.
Qed.

Lemma same_fields_same_day (t1 t2 : Z) :
  YearFromTime t1 = YearFromTime t2 ->
  MonthFromTime t1 = MonthFromTime t2 ->
  DateFromTime t1 = DateFromTime t2 ->
  Day t1 = Day t2.
Proof.
  intros Hy Hm Hd. rewrite (Day_of_fields t1), (Day_of_fields t2).
  unfold InLeapYear. rewrite Hy, Hm, Hd. reflexivity.
Qed.

(** X11. Two log times that are valid dates get the same partition key if
    and only if they fall on the same day of local time: the key changes
    with every day boundary and with nothing else. *)
Theorem partition_key_same_iff_same_local_day
    (Date_parse : string -> Number) (LocalTZA : Z -> Z)
    (logTime1 logTime2 : LogTime) (t1 t2 : Z) :
  DateValue (new_Date Date_parse logTime1) = Int t1 ->
  DateValue (new_Date Date_parse logTime2) = Int t2 ->
  (getIndexFromLogTime Date_parse LocalTZA logTime1 =
   getIndexFromLogTime Date_parse LocalTZA logTime2
   <-> Day (LocalTime LocalTZA t1) = Day (LocalTime LocalTZA t2)).
Proof.
  intros H1 H2. split.
  - rewrite (getIndexFromLogTime_valid Date_parse LocalTZA _ _ H1),
      (getIndexFromLogTime_valid Date_parse LocalTZA _ _ H2).
    set (l1 := LocalTime LocalTZA t1). set (l2 := LocalTime LocalTZA t2).
    intros Heq. rewrite !append_cons, !append_nil in Heq.
    injection Heq as Heq.
    apply split_at_dot in Heq as [Hy Heq]; [| apply pretty_Z_dotless ..].
    apply (inj pretty) in Hy.
    pose proof (MonthFromTime_bounds l1). pose proof (MonthFromTime_bounds l2).
    pose proof (DateFromTime_bounds l1). pose proof (DateFromTime_bounds l2).
    apply two_digits_append_inj in Heq as [Hm Heq].
    rewrite ?append_cons, ?append_nil in Heq.
    assert (Hd : two_digits (DateFromTime l1) = two_digits (DateFromTime l2))
      by congruence.
    apply two_digits_inj in Hm; [| lia ..].
    apply two_digits_inj in Hd; [| lia ..].
    apply same_fields_same_day; [assumption | lia | assumption].
  - intros Hday.
    apply (getIndexFromLogTime_same_day Date_parse LocalTZA _ _ t1 t2); assumption.
Qed.

Lemma partition_key_same_iff_same_local_day_witness :
  getIndexFromLogTime Date_parse_iso UTC (LtString "2024-03-05T23:59:59.999Z") <>
  getIndexFromLogTime Date_parse_iso UTC (LtString "2024-03-06T00:00:00.000Z").
Proof.
  intros Heq.
  apply (partition_key_same_iff_same_local_day Date_parse_iso UTC
           (LtString "2024-03-05T23:59:59.999Z") (LtString "2024-03-06T00:00:00.000Z")
           1709683199999 1709683200000) in Heq.
  - vm_compute in Heq. discriminate.
  - vm_compute. reflexivity.
  - vm_compute. reflexivity.
Defined.

Lemma TimeClip_idempotent (n : Number) : TimeClip (TimeClip n) = TimeClip n.
Proof.
  destruct n as [| t]; cbn; [reflexivity|].
  destruct (8640000000000000 <? Z.abs t) eqn:E; cbn; [reflexivity|].
  rewrite E. reflexivity.
Qed.

Section KeyOfAnyLogTime.

Variable Date_parse : string -> Number.
Variable LocalTZA : Z -> Z.

Lemma getIndexFromLogTime_by_value (lt1 lt2 : LogTime) :
  DateValue (new_Date Date_parse lt1) = DateValue (new_Date Date_parse lt2) ->
  getIndexFromLogTime Date_parse LocalTZA lt1 = getIndexFromLogTime Date_parse LocalTZA lt2.
Proof.
  intros H. unfold getIndexFromLogTime, getFullYear, getMonth, getDate.
  rewrite H. reflexivity.
Qed.

Lemma getIndexFromLogTime_valid_not_NaN (logTime : LogTime) (t : Z) :
  DateValue (new_Date Date_parse logTime) = Int t ->
  getIndexFromLogTime Date_parse LocalTZA logTime <> "logstash-NaN.NaN.NaN".
Proof.
  intros Hvalid. rewrite (getIndexFromLogTime_valid Date_parse LocalTZA _ t Hvalid).
  destruct (pretty_Z_head (YearFromTime (LocalTime LocalTZA t))) as (c & rest & -> & Hc).
  rewrite !append_cons, !append_nil. intros Heq. injection Heq as Heq _. congruence.
Qed.

End KeyOfAnyLogTime.

(** X12. For every log time that is a valid date, whatever its year, the
    key is [logstash-], the local year in plain decimal (no padding, a minus
    sign for a year before 0), a full stop, the month in two digits, a full
    stop and the day of the month in two digits. *)
Theorem partition_key_rendering
    (Date_parse : string -> Number) (LocalTZA : Z -> Z) (logTime : LogTime) (t : Z) :
  DateValue (new_Date Date_parse logTime) = Int t ->
  getIndexFromLogTime Date_parse LocalTZA logTime =
    "logstash-" +:+ pretty (YearFromTime (LocalTime LocalTZA t))
    +:+ "." +:+ two_digits (MonthFromTime (LocalTime LocalTZA t) + 1)
    +:+ "." +:+ two_digits (DateFromTime (LocalTime LocalTZA t)).
Proof. apply getIndexFromLogTime_valid. Qed.

Lemma partition_key_rendering_witness :
  getIndexFromLogTime Date_parse_iso UTC (LtNumber (Int (-62198755200000)))
  = "logstash--1.01.01".
Proof.
  refine (eq_trans
            (partition_key_rendering Date_parse_iso UTC
               (LtNumber (Int (-62198755200000))) (-62198755200000) _) _);
    vm_compute; reflexivity.
Defined.

(** X13. Passing the [Date] built from a log time gives the same key as
    passing the log time itself, valid or not: building a date from a date
    changes nothing. *)
Theorem partition_key_of_date_copy
    (Date_parse : string -> Number) (LocalTZA : Z -> Z) (logTime : LogTime) :
  getIndexFromLogTime Date_parse LocalTZA (LtDate (new_Date Date_parse logTime)) =
  getIndexFromLogTime Date_parse LocalTZA logTime.
Proof.
  apply getIndexFromLogTime_by_value.
  unfold new_Date. cbn [DateValue]. apply TimeClip_idempotent.
Qed.

(** X14. A log time gets the key [logstash-NaN.NaN.NaN] if and only if it is
    not a valid date; for a number of milliseconds that is exactly when it
    lies more than 8.64e15 away from the epoch, the two instants at that
    distance being the first and the last with a dated key. *)
Theorem partition_key_NaN_iff_invalid
    (Date_parse : string -> Number) (LocalTZA : Z -> Z) :
  (forall logTime,
      getIndexFromLogTime Date_parse LocalTZA logTime = "logstash-NaN.NaN.NaN"
      <-> DateValue (new_Date Date_parse logTime) = NaN) /\
  (forall t : Z,
      getIndexFromLogTime Date_parse LocalTZA (LtNumber (Int t)) = "logstash-NaN.NaN.NaN"
      <-> 8640000000000000 < Z.abs t).
Proof.
  assert (Hiff : forall logTime,
             getIndexFromLogTime Date_parse LocalTZA logTime = "logstash-NaN.NaN.NaN"
             <-> DateValue (new_Date Date_parse logTime) = NaN).
  { intros logTime. split.
    - intros Hkey. destruct (DateValue (new_Date Date_parse logTime)) as [| t] eqn:Hv;
        [reflexivity|].
      exfalso. exact (getIndexFromLogTime_valid_not_NaN Date_parse LocalTZA _ t Hv Hkey).
    - intros Hv. unfold getIndexFromLogTime, getFullYear, getMonth, getDate.
      rewrite Hv. reflexivity. }
  split; [exact Hiff|].
  intros t. rewrite Hiff. cbn [new_Date DateValue TimeClip].
  destruct (Z.ltb_spec 8640000000000000 (Z.abs t)); split; intros; try lia; congruence.
Qed.

(** ** Further properties: ISO timestamps in UTC *)

Lemma digit_value_spec (c : ascii) (v : Z) :
  digit_value c = Some v -> 0 <= v <= 9 /\ c = digit v.
Proof.
  unfold digit_value, digit.
  destruct (Nat.leb 48 (nat_of_ascii c) && Nat.leb (nat_of_ascii c) 57)%bool eqn:E;
    [| discriminate].
  intros [= <-]. apply andb_prop in E as [Hlo Hhi].
  apply Nat.leb_le in Hlo, Hhi. split; [lia|].
  replace (48 + Z.to_nat (Z.of_nat (nat_of_ascii c) - 48))%nat with (nat_of_ascii c) by lia.
  symmetry. apply ascii_nat_embedding.
Qed.

Lemma field_two_digits (s : string) (start : nat) (v : Z) :
  field s start 2 = Some v ->
  0 <= v <= 99 /\ String.substring start 2 s = two_digits v.
Proof.
  unfold field. destruct (String.substring start 2 s) as [| a [| b [| ? ?]]];
    cbn [String.length Nat.eqb]; try discriminate.
  cbn [digits_value].
  destruct (digit_value a) as [x |] eqn:Ha; [| discriminate].
  destruct (digit_value b) as [y |] eqn:Hb; [| discriminate].
  intros [= <-].
  apply digit_value_spec in Ha as [Hx ->]. apply digit_value_spec in Hb as [Hy ->].
  split; [lia|]. unfold two_digits.
  replace ((10 * (10 * 0 + x) + y) / 10) with x by (Z.div_mod_to_equations; lia).
  replace ((10 * (10 * 0 + x) + y) mod 10) with y by (Z.div_mod_to_equations; lia).
  reflexivity.
Qed.

Lemma field_four_digits (s : string) (start : nat) (v : Z) :
  field s start 4 = Some v ->
  0 <= v <= 9999 /\ String.substring start 4 s = four_digits v.
Proof.
  unfold field. destruct (String.substring start 4 s) as [| a [| b [| c [| d [| ? ?]]]]];
    cbn [String.length Nat.eqb]; try discriminate.
  cbn [digits_value].
  destruct (digit_value a) as [x |] eqn:Ha; [| discriminate].
  destruct (digit_value b) as [y |] eqn:Hb; [| discriminate].
  destruct (digit_value c) as [z |] eqn:Hc; [| discriminate].
  destruct (digit_value d) as [u |] eqn:Hd; [| discriminate].
  intros [= <-].
  apply digit_value_spec in Ha as [Hx ->]. apply digit_value_spec in Hb as [Hy ->].
  apply digit_value_spec in Hc as [Hz ->]. apply digit_value_spec in Hd as [Hu ->].
  split; [lia|]. unfold four_digits, two_digits.
  set (v := 10 * (10 * (10 * (10 * 0 + x) + y) + z) + u).
  replace (v / 1000) with x by (subst v; Z.div_mod_to_equations; lia).
  replace (v / 100 mod 10) with y by (subst v; Z.div_mod_to_equations; lia).
  replace (v mod 100 / 10) with z by (subst v; Z.div_mod_to_equations; lia).
  replace (v mod 100 mod 10) with u by (subst v; Z.div_mod_to_equations; lia).
  reflexivity.
Qed.

Ltac next_month :=
  repeat match goal with
         | H : context [Z.pos ?a + 1] |- _ =>
             let v := eval vm_compute in (Z.pos a + 1) in
             change (Z.pos a + 1) with v in H
         end.

Ltac settle_month :=
  next_month; cbn in *;
  repeat match goal with
         | |- context [if ?x <? ?y then _ else _] => destruct (Z.ltb_spec x y)
         end;
  cbn; split; lia.

Lemma civil_day_within_year (y mo d : Z) :
  1 <= mo <= 12 ->
  1 <= d <= DaysBeforeMonth y (mo + 1) - DaysBeforeMonth y mo ->
  0 <= DaysBeforeMonth y mo + (d - 1) < DaysInYear y.
Proof.
  intros Hmo Hd.
  assert (Hleap : DaysInYear y = 365 \/ DaysInYear y = 366) by apply DaysInYear_cases.
  assert (Hmo' : mo = 1 \/ mo = 2 \/ mo = 3 \/ mo = 4 \/ mo = 5 \/ mo = 6 \/
                 mo = 7 \/ mo = 8 \/ mo = 9 \/ mo = 10 \/ mo = 11 \/ mo = 12) by lia.
  unfold DaysBeforeMonth in *.
  destruct Hleap as [E | E]; rewrite E in *; cbn [Z.eqb Pos.eqb] in *;
    repeat (destruct Hmo' as [-> | Hmo']; [next_month; cbn in *; lia|]);
    subst mo; next_month; cbn in *; lia.
Qed.

(** Year, month and day of the month of a day given by its civil date. *)
Lemma fields_of_civil_date (y mo d t : Z) :
  1 <= mo <= 12 ->
  1 <= d <= DaysBeforeMonth y (mo + 1) - DaysBeforeMonth y mo ->
  Day t = DayFromYear y + DaysBeforeMonth y mo + (d - 1) ->
  YearFromTime t = y /\ MonthFromTime t = mo - 1 /\ DateFromTime t = d.
Proof.
  intros Hmo Hd Hday.
  pose proof (civil_day_within_year y mo d Hmo Hd) as Hin.
  assert (Hleap : DaysInYear y = 365 \/ DaysInYear y = 366) by apply DaysInYear_cases.
  assert (Hmo' : mo = 1 \/ mo = 2 \/ mo = 3 \/ mo = 4 \/ mo = 5 \/ mo = 6 \/
                 mo = 7 \/ mo = 8 \/ mo = 9 \/ mo = 10 \/ mo = 11 \/ mo = 12) by lia.
  assert (Hyear : YearFromTime t = y).
  { pose proof (proj1 (YearFromTime_largest t y) ltac:(lia)) as Hle.
    destruct (Z.le_gt_cases (YearFromTime t) y) as [| Hgt]; [lia|].
    pose proof (proj2 (YearFromTime_largest t (y + 1)) ltac:(lia)) as Hnext.
    rewrite DayFromYear_succ in Hnext. lia. }
  split; [exact Hyear|].
  assert (Hwithin : DayWithinYear t = DaysBeforeMonth y mo + (d - 1))
    by (unfold DayWithinYear; rewrite Hyear; lia).
  unfold DateFromTime, MonthFromTime, InLeapYear. rewrite Hwithin, Hyear.
  unfold DaysBeforeMonth in *.
  destruct Hleap as [E | E]; rewrite E in *; cbn [Z.eqb Pos.eqb] in *;
    repeat (destruct Hmo' as [-> | Hmo']; [settle_month|]);
    subst mo; settle_month.
Qed.

(** X15. In UTC, take a timestamp whose first ten characters are a date
    [YYYY-MM-DD] with a year from 1000 on, a month from 01 to 12 and a day
    that exists in that month, and a parser that reads it as an instant of
    that date, as ECMA-262 prescribes.  Its key is [logstash-] followed by
    the date as written, the year, the month and the day joined by full
    stops.  A day past the end of its month is not covered: the host runs it
    on into the next month. *)
Theorem iso_timestamp_key_in_utc
    (Date_parse : string -> Number) (s : string) (y mo d timeOfDay : Z) :
  field s 0 4 = Some y -> field s 5 2 = Some mo -> field s 8 2 = Some d ->
  1000 <= y -> 1 <= mo <= 12 ->
  1 <= d <= DaysBeforeMonth y (mo + 1) - DaysBeforeMonth y mo ->
  0 <= timeOfDay < msPerDay ->
  Date_parse s =
    Int ((DayFromYear y + DaysBeforeMonth y mo + (d - 1)) * msPerDay + timeOfDay) ->
  getIndexFromLogTime Date_parse UTC (LtString s) =
    "logstash-" +:+ String.substring 0 4 s +:+ "." +:+ String.substring 5 2 s
    +:+ "." +:+ String.substring 8 2 s.
Proof.
  intros Hy Hmo Hd Hy1000 Hmor Hdr Htod Hparse.
  apply field_four_digits in Hy as [Hyr Hys].
  apply field_two_digits in Hmo as [_ Hmos]. apply field_two_digits in Hd as [_ Hds].
  pose proof (civil_day_within_year y mo d Hmor Hdr) as Hin.
  pose proof (DaysInYear_cases y) as Hleap.
  set (D := DayFromYear y + DaysBeforeMonth y mo + (d - 1)) in *.
  set (t := D * msPerDay + timeOfDay) in *.
  assert (HD : -400000 <= D <= 3000000).
  { subst D. unfold DayFromYear. Z.div_mod_to_equations. lia. }
  assert (Hday : Day t = D).
  { subst t. unfold Day, msPerDay in *. Z.div_mod_to_equations. lia. }
  assert (Hvalid : DateValue (new_Date Date_parse (LtString s)) = Int t).
  { cbn [new_Date DateValue]. rewrite Hparse. cbn [TimeClip].
    destruct (Z.ltb_spec 8640000000000000 (Z.abs t)); [| reflexivity].
    subst t. unfold msPerDay in *. lia. }
  rewrite (getIndexFromLogTime_valid Date_parse UTC _ t Hvalid).
  unfold LocalTime, UTC. rewrite Z.add_0_r.
  destruct (fields_of_civil_date y mo d t Hmor Hdr Hday) as (-> & -> & ->).
  replace (mo - 1 + 1) with mo by lia.
  rewrite (pretty_four_digits y) by lia.
  rewrite Hys, Hmos, Hds. reflexivity.
Qed.

Lemma iso_timestamp_key_in_utc_witness :
  getIndexFromLogTime Date_parse_iso UTC (LtString "2024-02-29T23:59:59.999Z")
  = "logstash-2024.02.29".
Proof.
  refine (eq_trans
            (iso_timestamp_key_in_utc Date_parse_iso "2024-02-29T23:59:59.999Z"
               2024 2 29 86399999 _ _ _ _ _ _ _ _) _).
  - vm_compute. reflexivity.
  - vm_compute. reflexivity.
  - vm_compute. reflexivity.
  - lia.
  - lia.
  - vm_compute. split; discriminate.
  - unfold msPerDay. lia.
  - vm_compute. reflexivity.
  - vm_compute. reflexivity.
Defined.
